(** * Inventory backend: a shallow embedding of the Express server

    The server keeps one JSON document, an array of item objects, and
    exposes five routes over it.  Every route reads the whole document,
    computes, and (for the mutating routes) writes the whole document
    back.  This file embeds the five route handlers together with the
    JavaScript built-ins they rely on ([parseInt], [String.prototype.
    toLowerCase], [String.prototype.includes], [Math.max], object spread,
    [Array.prototype.find] / [findIndex] / [filter]) and proves the
    properties of the data-management core.

    Modelling conventions.
    - A JSON object is a finite map from property names to JSON values
      ([gmap string value]); property order is not observable by any
      handler.  [JSON.parse (JSON.stringify x)] is the identity on such
      values, so the persisted document is kept in parsed form.
    - The persisted document is an array of objects: every write the
      server performs keeps it so.
    - JSON numbers are rationals ([Q]); two numbers are the same number
      when they are [Qeq].  Arithmetic is exact, where JavaScript rounds
      to a double: the two agree on the integers of magnitude at most
      2^53, and a statement that depends on the value of a sum or of a
      parsed integer carries that bound as a hypothesis ([ids_between],
      [exact_integer]).  The infinities are outside the model, and [-0]
      is identified with [0].
    - Characters are the 8-bit characters of [string]; case mapping and
      white space are those of ASCII.  They are the runtime's on ASCII
      text, and a statement that depends on what [toLowerCase],
      [parseInt] or [trim] do to a character carries the hypothesis that
      the text is ASCII ([ascii_string]).
    - A handler receives what Express hands it: the path segment [:id]
      as a string, the query parameters [search] and [category] as
      optional strings, and the parsed JSON body as an object (an absent
      body is the empty object).
    - [new Date().toISOString()] is an input of the mutating handlers.
    - [ToNumber] of a string, an array or an object, which [Math.max]
      applies to a stored id of that kind, is a parameter of the
      handlers. *)

From stdpp Require Import gmap strings list fin_maps.
From Stdlib Require Import Ascii String QArith Lqa.
From Stdlib Require Import DecimalString DecimalPos.

Local Open Scope string_scope.
Local Open Scope list_scope.

(** ** JSON values and JavaScript numbers *)

#[warnings="-register-all"]
Inductive value :=
| VNull
| VBool (b : bool)
| VNum (q : Q)
| VStr (s : string)
| VArr (elems : list value)
| VObj (props : list (string * value)).

(** An object of the collection; a missing key reads as [undefined],
    which is [None] here. *)
Abbreviation object := (gmap string value).

(** A JavaScript number as the handlers can observe it: [NaN] or a
    finite number. *)
Inductive number :=
| NaN
| Num (q : Q).

(** [JSON.stringify] writes [NaN] as [null]. *)
Definition json_of_number (n : number) : value :=
  match n with
  | NaN => VNull
  | Num q => VNum q
  end.

(** [a + b] on numbers, as an exact sum: the double JavaScript computes
    when both operands and the sum are integers of magnitude at most
    2^53. *)
Definition num_add (a b : number) : number :=
  match a, b with
  | Num x, Num y => Num (x + y)
  | _, _ => NaN
  end.

(** The binary step of [Math.max]: [NaN] is absorbing. *)
Definition num_max (a b : number) : number :=
  match a, b with
  | Num x, Num y => if Qle_bool x y then Num y else Num x
  | _, _ => NaN
  end.

(** [Math.max(n, ...ns)] with at least one argument. *)
Definition Math_max (n : number) (ns : list number) : number :=
  fold_left num_max ns n.

(** [ToBoolean] of a property read. *)
Definition truthy (v : option value) : bool :=
  match v with
  | None => false
  | Some VNull => false
  | Some (VBool b) => b
  | Some (VNum q) => negb (Qeq_bool q 0)
  | Some (VStr s) => negb (bool_decide (s = ""))
  | Some (VArr _) => true
  | Some (VObj _) => true
  end.

(** [v === n] where [n] is a number: only a number value can be strictly
    equal to it, and [NaN] is equal to nothing. *)
Definition strict_eq_number (v : option value) (n : number) : bool :=
  match v, n with
  | Some (VNum q), Num q' => Qeq_bool q q'
  | _, _ => false
  end.

(** [v === s] where [s] is a string. *)
Definition strict_eq_string (v : option value) (s : string) : bool :=
  match v with
  | Some (VStr s') => bool_decide (s' = s)
  | _ => false
  end.

(** ** Strings *)

(** [toLowerCase] on ASCII text: the letters [A]-[Z] are mapped, every
    other character is kept. *)
Definition lower_char (c : ascii) : ascii :=
  let n := nat_of_ascii c in
  if (65 <=? n)%nat && (n <=? 90)%nat then ascii_of_nat (n + 32) else c.

Fixpoint toLowerCase (s : string) : string :=
  match s with
  | EmptyString => EmptyString
  | String c s' => String (lower_char c) (toLowerCase s')
  end.

Fixpoint starts_with (needle hay : string) : bool :=
  match needle, hay with
  | EmptyString, _ => true
  | String a n', String b h' => bool_decide (a = b) && starts_with n' h'
  | String _ _, EmptyString => false
  end.

(** [hay.includes(needle)]. *)
Fixpoint includes (hay needle : string) : bool :=
  starts_with needle hay ||
  match hay with
  | EmptyString => false
  | String _ h' => includes h' needle
  end.

(** ** [parseInt] with no radix argument

    White space is the white space of ASCII (tab, line feed, vertical
    tab, form feed, carriage return, space), and the integer read is
    exact: on an ASCII segment whose integer has magnitude at most 2^53
    this is the runtime's [parseInt]. *)

Definition is_white_space (c : ascii) : bool :=
  let n := nat_of_ascii c in
  ((9 <=? n)%nat && (n <=? 13)%nat) || (n =? 32)%nat.

Fixpoint trim_start (s : string) : string :=
  match s with
  | String c s' => if is_white_space c then trim_start s' else s
  | EmptyString => EmptyString
  end.

(** The value of a character as a digit in radix 10 or 16. *)
Definition digit_value (radix : Z) (c : ascii) : option Z :=
  let n := Z.of_nat (nat_of_ascii c) in
  let d :=
    if (48 <=? n)%Z && (n <=? 57)%Z then Some (n - 48)%Z
    else if (97 <=? n)%Z && (n <=? 122)%Z then Some (n - 87)%Z
    else if (65 <=? n)%Z && (n <=? 90)%Z then Some (n - 55)%Z
    else None in
  match d with
  | Some k => if (k <? radix)%Z then Some k else None
  | None => None
  end.

(** Reads the longest prefix of digits; [acc] is [None] until a digit
    has been read. *)
Fixpoint parse_digits (radix : Z) (acc : option Z) (s : string) : option Z :=
  match s with
  | EmptyString => acc
  | String c s' =>
      match digit_value radix c with
      | Some d => parse_digits radix (Some (default 0%Z acc * radix + d)%Z) s'
      | None => acc
      end
  end.

Definition parseInt (input : string) : number :=
  let S0 := trim_start input in
  let '(sign, S1) :=
    match S0 with
    | String "-" r => ((-1)%Z, r)
    | String "+" r => (1%Z, r)
    | _ => (1%Z, S0)
    end in
  let '(radix, S2) :=
    match S1 with
    | String "0" (String "x" r) => (16%Z, r)
    | String "0" (String "X" r) => (16%Z, r)
    | _ => (10%Z, S1)
    end in
  match parse_digits radix None S2 with
  | None => NaN
  | Some m => Num (inject_Z (sign * m))
  end.

(** ** Exceptions and the data file

    A handler body runs inside [try { ... } catch], reads the data file
    and may write it.  [writes] counts the calls of [writeData], so that
    "nothing was written" is a statement about the final state. *)

Inductive exn := TypeError.

Inductive outcome (A : Type) :=
| Ok (a : A)
| Throw (e : exn).
Arguments Ok {A} a.
Arguments Throw {A} e.

#[export] Instance outcome_ret : MRet outcome := λ A a, Ok a.
#[export] Instance outcome_bind : MBind outcome := λ A B f m,
  match m with
  | Ok a => f a
  | Throw e => Throw e
  end.

Record disk := Disk {
  data_file : list object;
  writes : nat
}.

Definition M (A : Type) : Type := disk → outcome A * disk.

#[export] Instance M_ret : MRet M := λ A a d, (Ok a, d).
#[export] Instance M_bind : MBind M := λ A B f m d,
  match m d with
  | (Ok a, d') => f a d'
  | (Throw e, d') => (Throw e, d')
  end.

(** A computation that touches no state. *)
Definition lift {A} (o : outcome A) : M A := λ d, (o, d).

(** [try { body } catch (error) { handler }]. *)
Definition try_catch {A} (body handler : M A) : M A := λ d,
  match body d with
  | (Ok a, d') => (Ok a, d')
  | (Throw _, d') => handler d'
  end.

Definition readData : M (list object) := λ d, (Ok (data_file d), d).

Definition writeData (data : list object) : M unit := λ d,
  (Ok tt, {| data_file := data; writes := S (writes d) |}).

(** ** Responses *)

Inductive payload :=
| Items (items : list object)
| Item (item : object)
| Error (msg : string)
| NoContent.

Record response := Res {
  res_status : nat;
  res_body : payload
}.

(** ** Array and object helpers *)

(** [{...dst, ...src}]: the properties of [src] win. *)
Definition spread (src dst : object) : object := src ∪ dst.

(** [{...o, k: v}] as it is serialised: a property whose value is
    [undefined] is not written. *)
Definition set_prop (k : string) (v : option value) (o : object) : object :=
  match v with
  | Some x => <[k := x]> o
  | None => delete k o
  end.

(** [items.findIndex(p)]; [None] stands for [-1]. *)
Fixpoint findIndex {A} (p : A → bool) (l : list A) : option nat :=
  match l with
  | [] => None
  | x :: l' => if p x then Some 0%nat else S <$> findIndex p l'
  end.

(** [items.filter(p)] for a callback that may throw: the first exception
    aborts the traversal. *)
Fixpoint filter_throwing {A} (p : A → outcome bool) (l : list A)
  : outcome (list A) :=
  match l with
  | [] => Ok []
  | x :: l' =>
      p x ≫= λ b : bool,
      filter_throwing p l' ≫= λ rest,
      mret (if b then x :: rest else rest)
  end.

(** [v.toLowerCase().includes(term)]: calling [toLowerCase] on anything
    but a string throws a [TypeError]. *)
Definition lower_includes (v : option value) (term : string) : outcome bool :=
  match v with
  | Some (VStr s) => Ok (includes (toLowerCase s) term)
  | _ => Throw TypeError
  end.

(** [v && v.toLowerCase().includes(term)], as a condition. *)
Definition guarded_includes (v : option value) (term : string) : outcome bool :=
  if truthy v then lower_includes v term else Ok false.

(** The callback of the search filter, with the short-circuit of [||]. *)
Definition search_callback (searchTerm : string) (item : object) : outcome bool :=
  lower_includes (item !! "productName") searchTerm ≫= λ b : bool,
  if b then Ok true else
  lower_includes (item !! "sku") searchTerm ≫= λ b : bool,
  if b then Ok true else
  guarded_includes (item !! "supplier") searchTerm ≫= λ b : bool,
  if b then Ok true else
  guarded_includes (item !! "location") searchTerm.

Definition category_callback (category : string) (item : object) : bool :=
  strict_eq_string (item !! "category") category.

Definition id_matches (id : string) (i : object) : bool :=
  strict_eq_number (i !! "id") (parseInt id).

(** The condition of the validation in [POST /api/items]:
    [!newItem.productName || !newItem.sku ||
     newItem.quantity === undefined || newItem.price === undefined]. *)
Definition missing_required (newItem : object) : bool :=
  negb (truthy (newItem !! "productName"))
  || negb (truthy (newItem !! "sku"))
  || bool_decide (newItem !! "quantity" = None)
  || bool_decide (newItem !! "price" = None).

(** ** The route handlers *)

Section Handlers.

(** [ToNumber] on a string, and on an array or object (through
    [ToPrimitive]), are taken from the language runtime. *)
Variable StringToNumber : string → number.
Variable ObjectToNumber : value → number.

Definition ToNumber (v : option value) : number :=
  match v with
  | None => NaN
  | Some VNull => Num 0
  | Some (VBool b) => Num (if b then 1 else 0)
  | Some (VNum q) => Num q
  | Some (VStr s) => StringToNumber s
  | Some (VArr elems) => ObjectToNumber (VArr elems)
  | Some (VObj props) => ObjectToNumber (VObj props)
  end.

(** [items.length > 0 ? Math.max(...items.map(i => i.id)) + 1 : 1] *)
Definition next_id (items : list object) : number :=
  match map (λ i : object, ToNumber (i !! "id")) items with
  | [] => Num 1
  | n :: ns => num_add (Math_max n ns) (Num 1)
  end.

(** [GET /api/items] *)
Definition get_items (search category : option string) : M response :=
  try_catch
    (items ← readData;
     items ← match search with
              | Some s =>
                  if truthy (Some (VStr s)) then
                    let searchTerm := toLowerCase s in
                    lift (filter_throwing (search_callback searchTerm) items)
                  else mret items
              | None => mret items
              end;
     let items :=
       match category with
       | Some c =>
           if truthy (Some (VStr c))
           then List.filter (category_callback c) items
           else items
       | None => items
       end in
     mret (Res 200 (Items items)))
    (mret (Res 500 (Error "Failed to fetch items"))).

(** [GET /api/items/:id] *)
Definition get_item (id : string) : M response :=
  try_catch
    (items ← readData;
     match List.find (id_matches id) items with
     | None => mret (Res 404 (Error "Item not found"))
     | Some item => mret (Res 200 (Item item))
     end)
    (mret (Res 500 (Error "Failed to fetch item"))).

Definition make_new_item (now : string) (body : object)
    (items : list object) : object :=
  <["lastUpdated" := VStr now]>
    (spread body {["id" := json_of_number (next_id items)]}).

(** [POST /api/items] *)
Definition post_items (now : string) (body : object) : M response :=
  try_catch
    (items ← readData;
     let newItem := make_new_item now body items in
     if missing_required newItem
     then mret (Res 400 (Error "Missing required fields"))
     else
       writeData (items ++ [newItem]);;
       mret (Res 201 (Item newItem)))
    (mret (Res 500 (Error "Failed to create item"))).

Definition make_updated_item (now : string) (body existing : object)
    : object :=
  <["lastUpdated" := VStr now]>
    (set_prop "id" (existing !! "id") (spread body existing)).

(** [PUT /api/items/:id] *)
Definition put_item (now : string) (id : string) (body : object)
    : M response :=
  try_catch
    (items ← readData;
     match findIndex (id_matches id) items with
     | None => mret (Res 404 (Error "Item not found"))
     | Some index =>
         match items !! index with
         | None => lift (Throw TypeError)
         | Some existing =>
             let updatedItem := make_updated_item now body existing in
             writeData (<[index := updatedItem]> items);;
             mret (Res 200 (Item updatedItem))
         end
     end)
    (mret (Res 500 (Error "Failed to update item"))).

(** [DELETE /api/items/:id] *)
Definition delete_item (id : string) : M response :=
  try_catch
    (items ← readData;
     let initialLength := List.length items in
     let items := List.filter (λ i, negb (id_matches id i)) items in
     if (List.length items =? initialLength)%nat
     then mret (Res 404 (Error "Item not found"))
     else
       writeData items;;
       mret (Res 204 NoContent))
    (mret (Res 500 (Error "Failed to delete item"))).

End Handlers.

(** ** The router

    [app.get], [app.post], [app.put] and [app.delete] register the five
    handlers; a request is one of the five routes with its parameters. *)

Inductive request :=
| GetItems (search category : option string)
| GetItem (id : string)
| PostItems (now : string) (body : object)
| PutItem (now : string) (id : string) (body : object)
| DeleteItem (id : string).

Definition handle (StringToNumber : string → number)
    (ObjectToNumber : value → number) (r : request) : M response :=
  match r with
  | GetItems search category => get_items search category
  | GetItem id => get_item id
  | PostItems now body => post_items StringToNumber ObjectToNumber now body
  | PutItem now id body => put_item now id body
  | DeleteItem id => delete_item id
  end.

Definition is_mutation (r : request) : bool :=
  match r with
  | PostItems _ _ | PutItem _ _ _ | DeleteItem _ => true
  | _ => false
  end.

(** ** The seed document *)

Definition make_item (id : Z) (productName sku category : string)
    (quantity : Z) (price : Q) (supplier location lastUpdated : string)
    : object :=
  <["id" := VNum (inject_Z id)]>
  (<["productName" := VStr productName]>
  (<["sku" := VStr sku]>
  (<["category" := VStr category]>
  (<["quantity" := VNum (inject_Z quantity)]>
  (<["price" := VNum price]>
  (<["supplier" := VStr supplier]>
  (<["location" := VStr location]>
  (<["lastUpdated" := VStr lastUpdated]> ∅)))))))).

Definition laptop : object :=
  make_item 1 "Laptop" "LP001" "Electronics" 15 (99999 # 100)
    "Tech Corp" "Warehouse A" "2023-10-28T10:30:00Z".

Definition desk_chair : object :=
  make_item 2 "Desk Chair" "DC001" "Office" 8 (14999 # 100)
    "Furniture Plus" "Warehouse B" "2023-10-27T14:45:00Z".

Definition wireless_mouse : object :=
  make_item 3 "Wireless Mouse" "WM001" "Electronics" 3 (2999 # 100)
    "Tech Corp" "Warehouse A" "2023-10-29T09:15:00Z".

Definition initialData : list object := [laptop; desk_chair; wireless_mouse].

(** A request body with the four required fields. *)
Definition required_fields (productName sku : string) (quantity : Z)
    (price : Q) : object :=
  <["productName" := VStr productName]>
  (<["sku" := VStr sku]>
  (<["quantity" := VNum (inject_Z quantity)]>
  (<["price" := VNum price]> ∅))).

(** A runtime whose string and object coercions yield [NaN]; the
    examples below never coerce a string or an object. *)
Definition no_coercion {A} (_ : A) : number := NaN.

(** ** Predicates used in the statements *)

(** Every stored id is a number. *)
Definition numeric_ids (items : list object) : Prop :=
  Forall (λ i : object, ∃ q, i !! "id" = Some (VNum q)) items.

(** Every stored id is a number at most [m]. *)
Definition ids_at_most (m : Q) (items : list object) : Prop :=
  Forall (λ i : object, ∃ q, i !! "id" = Some (VNum q) ∧ (q <= m)%Q) items.

(** No two positions of the collection hold the same numeric id. *)
Definition distinct_ids (items : list object) : Prop :=
  ∀ (i j : nat) (a b : object) (qa qb : Q),
    items !! i = Some a → items !! j = Some b →
    a !! "id" = Some (VNum qa) → b !! "id" = Some (VNum qb) →
    (qa == qb)%Q → i = j.

(** Two characters are the same letter up to case: they are equal, or
    they are the upper-case and the lower-case form of one ASCII letter. *)
Definition same_letter (a b : ascii) : Prop :=
  let x := nat_of_ascii a in
  let y := nat_of_ascii b in
  x = y ∨ (65 ≤ x ≤ 90 ∧ y = x + 32)%nat ∨ (65 ≤ y ≤ 90 ∧ x = y + 32)%nat.

(** [mid] equals [term] up to the case of its letters. *)
Definition same_ignoring_case (mid term : string) : Prop :=
  String.length mid = String.length term ∧
  ∀ n x y, String.get n mid = Some x → String.get n term = Some y →
           same_letter x y.

(** [field] contains [term] as a substring, up to case. *)
Definition contains_ignoring_case (field term : string) : Prop :=
  ∃ pre mid post, field = pre +:+ mid +:+ post ∧ same_ignoring_case mid term.

(** One of the four searched fields is a string that contains the term. *)
Definition matches_search (term : string) (item : object) : Prop :=
  ∃ k s, k ∈ ["productName"; "sku"; "supplier"; "location"] ∧
         item !! k = Some (VStr s) ∧ contains_ignoring_case s term.

(** The item's category is exactly the given string. *)
Definition matches_category (c : string) (item : object) : Prop :=
  item !! "category" = Some (VStr c).

(** The shape of an item in the data model: [productName] and [sku] are
    strings, [supplier] and [location] are absent, [null] or strings. *)
Definition optional_string (v : option value) : Prop :=
  v = None ∨ v = Some VNull ∨ ∃ s, v = Some (VStr s).

Definition well_shaped (item : object) : Prop :=
  (∃ s, item !! "productName" = Some (VStr s)) ∧
  (∃ s, item !! "sku" = Some (VStr s)) ∧
  optional_string (item !! "supplier") ∧
  optional_string (item !! "location").




(** The two filtering steps of [GET /api/items], named for the
    statements below. *)
Definition search_step (search : option string) (items : list object)
    : outcome (list object) :=
  match search with
  | Some s =>
      if truthy (Some (VStr s))
      then filter_throwing (search_callback (toLowerCase s)) items
      else Ok items
  | None => Ok items
  end.

Definition category_step (category : option string) (items : list object)
    : list object :=
  match category with
  | Some c =>
      if truthy (Some (VStr c))
      then List.filter (category_callback c) items
      else items
  | None => items
  end.

(** The search test on one field and on one item, without the
    exceptions: what [search_callback] computes on a well-shaped item. *)
Definition field_includes (v : option value) (term : string) : bool :=
  match v with
  | Some (VStr s) => includes (toLowerCase s) term
  | _ => false
  end.

Definition search_keep (term : string) (item : object) : bool :=
  field_includes (item !! "productName") term
  || field_includes (item !! "sku") term
  || field_includes (item !! "supplier") term
  || field_includes (item !! "location") term.

(** The items a list request retains. *)
Definition list_keep (search category : option string) (item : object) : bool :=
  match search with
  | Some s => if truthy (Some (VStr s))
              then search_keep (toLowerCase s) item else true
  | None => true
  end &&
  match category with
  | Some c => if truthy (Some (VStr c)) then category_callback c item else true
  | None => true
  end.

(** A second record that reuses the id of the laptop. *)
Definition laptop_twin : object :=
  make_item 1 "Laptop Bag" "LB001" "Accessories" 4 (2500 # 100)
    "Tech Corp" "Warehouse C" "2023-10-30T08:00:00Z".

(** A body that carries the four required fields and an [id] of its own. *)
Definition body_with_id (id : Z) : object :=
  <["id" := VNum (inject_Z id)]> (required_fields "Widget" "W1" 5 (999 # 100)).

(** An update body that tries to change the id and the timestamp along
    with the quantity. *)
Definition update_body : object :=
  <["id" := VNum 99]>
  (<["quantity" := VNum 20]>
  (<["lastUpdated" := VStr "1999-01-01T00:00:00.000Z"]> ∅)).

(** ** Request sequences

    The handlers are synchronous ([readFileSync], [writeFileSync]), so
    the server finishes one request before it starts the next: a run of
    the server is a fold over the requests it receives. *)

Definition serve (StringToNumber : string → number)
    (ObjectToNumber : value → number) (d : disk) (r : request) : disk :=
  (handle StringToNumber ObjectToNumber r d).2.

Definition serve_all (StringToNumber : string → number)
    (ObjectToNumber : value → number) (rs : list request) (d : disk) : disk :=
  fold_left (serve StringToNumber ObjectToNumber) rs d.

(** A request that leaves the id of a new record to the server. *)
Definition server_assigned (r : request) : Prop :=
  match r with
  | PostItems _ body => body !! "id" = None
  | _ => True
  end.

(** A 2xx status. *)
Definition is_success (status : nat) : bool :=
  (200 <=? status)%nat && (status <? 300)%nat.

(** The ids of the collection, position by position. *)
Definition ids_of (items : list object) : list (option value) :=
  (λ i : object, i !! "id") <$> items.

(** Every stored id is an integer. *)
Definition integer_ids (items : list object) : Prop :=
  Forall (λ i : object, ∃ q z, i !! "id" = Some (VNum q) ∧ (q == inject_Z z)%Q)
    items.

(** [String(n)] for an integer [n], as a template literal such as
    [`${API_BASE_URL}/items/${itemId}`] writes it: decimal digits, with
    a leading [-] for a negative number.  This is the runtime's
    conversion for the integers of magnitude at most 2^53 (JavaScript
    switches to exponent notation from 10^21 on); the statements about
    it are restricted to them by [exact_integer]. *)
Definition integer_to_string (z : Z) : string :=
  NilZero.string_of_int (Z.to_int z).

(** An item whose [productName] is not a string. *)
Definition productName_not_string (item : object) : Prop :=
  ∀ s, item !! "productName" ≠ Some (VStr s).

(** ** The browser client of the API

    The client reads the form fields, shapes them into [formData] and
    sends one request.  The values of the inputs, the edit state
    ([isEditMode], [currentItemId]) and [parseFloat] are inputs of the
    model; ids the client holds are integers, written into a path by a
    template literal.  What is modelled is the request a function sends,
    or that it sends none.  The functions are embedded one by one, as
    their bodies read; [loadInventory] in the same script has a [try]
    with no [catch], which the embedding leaves aside. *)

(** [s.trim()] on ASCII text: white space removed at both ends. *)
Fixpoint trim_end (s : string) : string :=
  match s with
  | EmptyString => EmptyString
  | String c s' =>
      match trim_end s' with
      | EmptyString => if is_white_space c then EmptyString
                       else String c EmptyString
      | t => String c t
      end
  end.

Definition trim (s : string) : string := trim_end (trim_start s).

(** [parseInt(input, 10)]: as [parseInt], without the [0x] prefix. *)
Definition parseInt_radix10 (input : string) : number :=
  let S0 := trim_start input in
  let '(sign, S1) :=
    match S0 with
    | String "-" r => ((-1)%Z, r)
    | String "+" r => (1%Z, r)
    | _ => (1%Z, S0)
    end in
  match parse_digits 10 None S1 with
  | None => NaN
  | Some m => Num (inject_Z (sign * m))
  end.

Definition isNaN (n : number) : bool :=
  match n with
  | NaN => true
  | Num _ => false
  end.

(** [s || null] *)
Definition or_null (s : string) : value :=
  if truthy (Some (VStr s)) then VStr s else VNull.

(** The [value] of the seven inputs of the item form. *)
Record form := Form {
  input_productName : string;
  input_sku : string;
  input_category : string;
  input_quantity : string;
  input_price : string;
  input_supplier : string;
  input_location : string
}.

(** A request as the client sends it; the server adds its clock. *)
Inductive client_call :=
| CallList (search category : option string)
| CallGet (id : string)
| CallPost (body : object)
| CallPut (id : string) (body : object)
| CallDelete (id : string).

Definition request_of (now : string) (c : client_call) : request :=
  match c with
  | CallList search category => GetItems search category
  | CallGet id => GetItem id
  | CallPost body => PostItems now body
  | CallPut id body => PutItem now id body
  | CallDelete id => DeleteItem id
  end.

(** [currentItemId] is [null] or an integer id; as a condition it is
    true for a non-zero id. *)
Definition id_truthy (currentItemId : option Z) : bool :=
  match currentItemId with
  | Some z => negb (z =? 0)%Z
  | None => false
  end.

(** [`${currentItemId}`] *)
Definition id_segment (currentItemId : option Z) : string :=
  match currentItemId with
  | Some z => integer_to_string z
  | None => "null"
  end.

Section Client.

(** [parseFloat] is taken from the runtime; it yields [NaN] or a finite
    number here. *)
Variable parseFloat : string → number.

(** [JSON.stringify(formData)], parsed by the server. *)
Definition formData_json (f : form) : object :=
  <["productName" := VStr (trim (input_productName f))]>
  (<["sku" := VStr (trim (input_sku f))]>
  (<["category" := VStr (input_category f)]>
  (<["quantity" := json_of_number (parseInt_radix10 (input_quantity f))]>
  (<["price" := json_of_number (parseFloat (input_price f))]>
  (<["supplier" := or_null (trim (input_supplier f))]>
  (<["location" := or_null (trim (input_location f))]> ∅)))))).

(** [handleFormSubmit]: [None] when the client-side validation shows the
    error notification and returns without sending anything. *)
Definition handleFormSubmit (isEditMode : bool) (currentItemId : option Z)
    (f : form) : option client_call :=
  if negb (truthy (Some (VStr (trim (input_productName f)))))
     || negb (truthy (Some (VStr (trim (input_sku f)))))
     || isNaN (parseInt_radix10 (input_quantity f))
     || isNaN (parseFloat (input_price f))
  then None
  else if isEditMode && id_truthy currentItemId
       then Some (CallPut (id_segment currentItemId) (formData_json f))
       else Some (CallPost (formData_json f)).

(** A body that some submission of the form sends. *)
Definition form_body (body : object) : Prop :=
  ∃ isEditMode currentItemId f,
    handleFormSubmit isEditMode currentItemId f = Some (CallPost body) ∨
    ∃ id, handleFormSubmit isEditMode currentItemId f = Some (CallPut id body).

(** A request whose body, if it has one, comes from the form. *)
Definition form_made (r : request) : Prop :=
  match r with
  | PostItems _ body => form_body body
  | PutItem _ _ body => form_body body
  | _ => True
  end.

End Client.

(** [filterInventory] of the API client: the term is lower-cased, and a
    parameter is sent only when it is not empty. *)
Definition filterInventory (searchInput categoryFilter : string)
    : client_call :=
  let searchTerm := toLowerCase searchInput in
  let category := categoryFilter in
  CallList (if truthy (Some (VStr searchTerm)) then Some searchTerm else None)
           (if truthy (Some (VStr category)) then Some category else None).

(** [confirmDelete]: no request when [currentItemId] is falsy. *)
Definition confirmDelete (currentItemId : option Z) : option client_call :=
  if negb (id_truthy currentItemId) then None
  else Some (CallDelete (id_segment currentItemId)).

(** Some stored item has the integer id [z]. *)
Definition has_id (z : Z) (items : list object) : Prop :=
  Exists (λ i : object, ∃ q, i !! "id" = Some (VNum q) ∧ (q == inject_Z z)%Q)
    items.

(** A [parseFloat] for the examples: it reads the one price they use. *)
Definition sample_parseFloat (s : string) : number :=
  if bool_decide (s = "9.99") then Num (999 # 100) else NaN.

(** The form as a user fills it in for a new widget. *)
Definition widget_form : form :=
  Form "  Widget " "W1" "Tools" "5" "9.99" "" " Shelf 1".

(** ** The domain on which the built-ins are the runtime's *)

Definition ascii_char (c : ascii) : bool := (nat_of_ascii c <? 128)%nat.

(** A string of ASCII characters. *)
Fixpoint ascii_string (s : string) : bool :=
  match s with
  | EmptyString => true
  | String c s' => ascii_char c && ascii_string s'
  end.

(** The four searched fields of an item are ASCII where they are
    strings. *)
Definition ascii_searched (item : object) : Prop :=
  ∀ k s, k ∈ ["productName"; "sku"; "supplier"; "location"] →
         item !! k = Some (VStr s) → ascii_string s = true.

(** An integer that a double holds exactly and next to which every
    integer is a double too: its magnitude is at most 2^53. *)
Definition exact_integer (z : Z) : Prop :=
  (- 2 ^ 53 ≤ z ≤ 2 ^ 53)%Z.

(** Every stored id is an integer between [lo] and [hi]. *)
Definition ids_between (lo hi : Z) (items : list object) : Prop :=
  Forall (λ i : object,
            ∃ q z, i !! "id" = Some (VNum q) ∧ (q == inject_Z z)%Q ∧
                   (lo ≤ z ≤ hi)%Z) items.

(** * Properties *)

(** ** The handlers as equations *)

Section Equations.

Variable StringToNumber : string → number.
Variable ObjectToNumber : value → number.

Lemma get_item_eq id d :
  get_item id d =
    (Ok match List.find (id_matches id) (data_file d) with
        | None => Res 404 (Error "Item not found")
        | Some item => Res 200 (Item item)
        end, d).
Proof.
  unfold get_item, try_catch, readData, mbind, M_bind; simpl.
  destruct (List.find _ _); reflexivity.
Qed.

Lemma post_items_eq now body d :
  post_items StringToNumber ObjectToNumber now body d =
    let newItem :=
      make_new_item StringToNumber ObjectToNumber now body (data_file d) in
    if missing_required newItem
    then (Ok (Res 400 (Error "Missing required fields")), d)
    else (Ok (Res 201 (Item newItem)),
          Disk (data_file d ++ [newItem]) (S (writes d))).
Proof.
  unfold post_items, try_catch, readData, mbind, M_bind. simpl.
  destruct (missing_required _); reflexivity.
Qed.

Lemma put_item_eq now id body d :
  put_item now id body d =
    match findIndex (id_matches id) (data_file d) with
    | None => (Ok (Res 404 (Error "Item not found")), d)
    | Some index =>
        match data_file d !! index with
        | None => (Ok (Res 500 (Error "Failed to update item")), d)
        | Some existing =>
            let updatedItem := make_updated_item now body existing in
            (Ok (Res 200 (Item updatedItem)),
             Disk (<[index := updatedItem]> (data_file d)) (S (writes d)))
        end
    end.
Proof.
  unfold put_item, try_catch, readData, mbind, M_bind; simpl.
  destruct (findIndex _ _) as [index|]; [|reflexivity].
  destruct (data_file d !! index); reflexivity.
Qed.

Lemma delete_item_eq id d :
  delete_item id d =
    let items := List.filter (λ i, negb (id_matches id i)) (data_file d) in
    if (List.length items =? List.length (data_file d))%nat
    then (Ok (Res 404 (Error "Item not found")), d)
    else (Ok (Res 204 NoContent), Disk items (S (writes d))).
Proof.
  unfold delete_item, try_catch, readData, mbind, M_bind; simpl.
  destruct (_ =? _)%nat; reflexivity.
Qed.

End Equations.

(** ** [find], [findIndex] and [filter] *)

Section ListFacts.

Context {A : Type} (p : A → bool).

Lemma findIndex_Some l i :
  findIndex p l = Some i →
  ∃ x, l !! i = Some x ∧ p x = true ∧
       Forall (λ y, p y = false) (take i l).
Proof.
  revert i. induction l as [|x l IH]; intros i; simpl; [discriminate|].
  destruct (p x) eqn:Hx.
  - intros [= <-]. exists x. repeat split; [assumption | constructor].
  - destruct (findIndex p l) as [j|] eqn:Hj; simpl; [|discriminate].
    intros [= <-]. destruct (IH j eq_refl) as (y & Hy & Hpy & Hpre).
    exists y. repeat split; [assumption..|].
    simpl. constructor; assumption.
Qed.

Lemma findIndex_None l :
  findIndex p l = None → Forall (λ y, p y = false) l.
Proof.
  induction l as [|x l IH]; simpl; [constructor|].
  destruct (p x) eqn:Hx; [discriminate|].
  destruct (findIndex p l); simpl; [discriminate|].
  intros _. constructor; auto.
Qed.

Lemma findIndex_first pre x post :
  Forall (λ y, p y = false) pre → p x = true →
  findIndex p (pre ++ x :: post) = Some (List.length pre).
Proof.
  intros Hpre Hx. induction Hpre as [|y pre Hy _ IH]; simpl.
  - rewrite Hx. reflexivity.
  - rewrite Hy, IH. reflexivity.
Qed.

Lemma find_first pre x post :
  Forall (λ y, p y = false) pre → p x = true →
  List.find p (pre ++ x :: post) = Some x.
Proof.
  intros Hpre Hx. induction Hpre as [|y pre Hy _ IH]; simpl.
  - rewrite Hx. reflexivity.
  - rewrite Hy. exact IH.
Qed.

Lemma find_none l :
  Forall (λ y, p y = false) l → List.find p l = None.
Proof.
  induction 1 as [|y l Hy _ IH]; simpl; [reflexivity|].
  rewrite Hy. exact IH.
Qed.

Lemma findIndex_Exists l :
  Exists (λ y, p y = true) l → ∃ i, findIndex p l = Some i.
Proof.
  induction l as [|x l IH]; intros H; [inversion H|]. simpl.
  destruct (p x) eqn:Hx; [eauto|].
  inversion H as [? ? Hx'|? ? Hl]; subst; [congruence|].
  destruct (IH Hl) as [i ->]. eauto.
Qed.

Lemma filter_negb_all l :
  Forall (λ y, p y = false) l → List.filter (λ y, negb (p y)) l = l.
Proof.
  induction 1 as [|y l Hy _ IH]; simpl; [reflexivity|].
  rewrite Hy. simpl. rewrite IH. reflexivity.
Qed.

Lemma filter_length_le l : (List.length (List.filter p l) ≤ List.length l)%nat.
Proof.
  induction l as [|x l IH]; simpl; [lia|]. destruct (p x); simpl; lia.
Qed.

Lemma filter_length_eq l :
  List.length (List.filter p l) = List.length l → List.filter p l = l.
Proof.
  induction l as [|x l IH]; simpl; [reflexivity|].
  destruct (p x); simpl; intros H.
  - f_equal. apply IH. lia.
  - pose proof (filter_length_le l). lia.
Qed.

Lemma filter_sublist l : sublist (List.filter p l) l.
Proof.
  induction l as [|x l IH]; simpl; [constructor|].
  destruct (p x); [apply sublist_skip | apply sublist_cons]; exact IH.
Qed.


Lemma filter_all_true l : Forall (λ y, p y = true) (List.filter p l).
Proof.
  apply Forall_forall. intros x Hx.
  apply list_elem_of_In, filter_In in Hx. tauto.
Qed.

End ListFacts.

(** ** Facts about ids and the two record constructors *)


Lemma id_matches_numeric id (i : object) :
  id_matches id i = true →
  ∃ q n, i !! "id" = Some (VNum q) ∧ parseInt id = Num n ∧ (q == n)%Q.
Proof.
  unfold id_matches, strict_eq_number.
  destruct (i !! "id") as [[| |q| | |]|]; try discriminate.
  destruct (parseInt id) as [|n]; [discriminate|].
  intros H. exists q, n. repeat split. apply Qeq_bool_iff. exact H.
Qed.

Lemma spread_lookup (src dst : object) k :
  spread src dst !! k = from_option Some (dst !! k) (src !! k).
Proof.
  unfold spread. rewrite lookup_union.
  destruct (src !! k), (dst !! k); reflexivity.
Qed.

Lemma set_prop_lookup k v (o : object) : set_prop k v o !! k = v.
Proof.
  destruct v; simpl; [apply lookup_insert_eq | apply lookup_delete_eq].
Qed.

Lemma set_prop_lookup_ne k k' v (o : object) :
  k ≠ k' → set_prop k v o !! k' = o !! k'.
Proof.
  intros Hne. destruct v; simpl;
    [apply lookup_insert_ne | apply lookup_delete_ne]; exact Hne.
Qed.

Section Records.

Variable StringToNumber : string → number.
Variable ObjectToNumber : value → number.

Lemma new_item_field now body items k :
  k ≠ "id" → k ≠ "lastUpdated" →
  make_new_item StringToNumber ObjectToNumber now body items !! k = body !! k.
Proof.
  intros Hid Hlu. unfold make_new_item.
  rewrite lookup_insert_ne by congruence.
  rewrite spread_lookup, lookup_singleton_ne by congruence.
  destruct (body !! k); reflexivity.
Qed.


Lemma new_item_id now body items :
  make_new_item StringToNumber ObjectToNumber now body items !! "id"
  = Some (default (json_of_number (next_id StringToNumber ObjectToNumber items))
                  (body !! "id")).
Proof.
  unfold make_new_item. rewrite lookup_insert_ne by discriminate.
  rewrite spread_lookup, lookup_singleton_eq.
  destruct (body !! "id"); reflexivity.
Qed.

End Records.

Lemma updated_item_field now body existing k :
  k ≠ "id" → k ≠ "lastUpdated" →
  make_updated_item now body existing !! k
  = from_option Some (existing !! k) (body !! k).
Proof.
  intros Hid Hlu. unfold make_updated_item.
  rewrite lookup_insert_ne by congruence.
  rewrite set_prop_lookup_ne by congruence.
  apply spread_lookup.
Qed.

Lemma updated_item_id now body existing :
  make_updated_item now body existing !! "id" = existing !! "id".
Proof.
  unfold make_updated_item. rewrite lookup_insert_ne by discriminate.
  apply set_prop_lookup.
Qed.

Lemma updated_item_lastUpdated now body existing :
  make_updated_item now body existing !! "lastUpdated" = Some (VStr now).
Proof. unfold make_updated_item. apply lookup_insert_eq. Qed.

Lemma get_items_eq search category d :
  get_items search category d =
    (Ok match search_step search (data_file d) with
        | Ok items => Res 200 (Items (category_step category items))
        | Throw _ => Res 500 (Error "Failed to fetch items")
        end, d).
Proof.
  unfold get_items, try_catch, readData, mbind, M_bind, search_step,
    category_step, lift, mret, M_ret; simpl.
  destruct search as [s|]; [|reflexivity].
  destruct (negb _); [|reflexivity].
  destruct (filter_throwing _ _); reflexivity.
Qed.

(** ** Update *)

(** C3. An update of an existing item answers 200 with the shallow merge
    of the body over the stored record: every field other than [id] and
    [lastUpdated] comes from the body when the body has it and from the
    stored record otherwise, [id] is the stored record's id whatever the
    body says, [lastUpdated] is the current time; the merged record
    replaces the stored one in the written document and is the one
    returned. *)
Theorem put_item_shallow_merge now id body d :
  Exists (λ i, id_matches id i = true) (data_file d) →
  ∃ index existing merged,
    data_file d !! index = Some existing ∧
    id_matches id existing = true ∧
    put_item now id body d =
      (Ok (Res 200 (Item merged)),
       Disk (<[index := merged]> (data_file d)) (S (writes d))) ∧
    <[index := merged]> (data_file d) !! index = Some merged ∧
    merged !! "id" = existing !! "id" ∧
    merged !! "lastUpdated" = Some (VStr now) ∧
    ∀ k, k ≠ "id" → k ≠ "lastUpdated" →
         merged !! k = from_option Some (existing !! k) (body !! k).
Proof.
  intros Hex. apply findIndex_Exists in Hex as [index Hindex].
  destruct (findIndex_Some _ _ _ Hindex) as (existing & Hlook & Hmatch & _).
  exists index, existing, (make_updated_item now body existing).
  split; [exact Hlook|]. split; [exact Hmatch|].
  split; [rewrite put_item_eq, Hindex, Hlook; reflexivity|].
  split; [apply list_lookup_insert_eq; eapply lookup_lt_Some; exact Hlook|].
  split; [apply updated_item_id|].
  split; [apply updated_item_lastUpdated|].
  intros k Hid Hlu. apply updated_item_field; assumption.
Qed.

Lemma put_item_shallow_merge_witness :
  ∃ index existing merged,
    initialData !! index = Some existing ∧
    id_matches "2" existing = true ∧
    put_item "2024-01-01T00:00:00.000Z" "2" update_body (Disk initialData 0) =
      (Ok (Res 200 (Item merged)),
       Disk (<[index := merged]> initialData) 1) ∧
    <[index := merged]> initialData !! index = Some merged ∧
    merged !! "id" = existing !! "id" ∧
    merged !! "lastUpdated" = Some (VStr "2024-01-01T00:00:00.000Z") ∧
    ∀ k, k ≠ "id" → k ≠ "lastUpdated" →
         merged !! k = from_option Some (existing !! k) (update_body !! k).
Proof.
  apply (put_item_shallow_merge "2024-01-01T00:00:00.000Z" "2" update_body
           (Disk initialData 0)).
  apply Exists_cons_tl, Exists_cons_hd. reflexivity.
Defined.

(** The update of the desk chair with [update_body]: the quantity comes
    from the body, the id stays 2, the timestamp is the current time and
    every other field is the stored one. *)
Example update_desk_chair :
  put_item "2024-01-01T00:00:00.000Z" "2" update_body (Disk initialData 0)
  = (Ok (Res 200 (Item
       (make_item 2 "Desk Chair" "DC001" "Office" 20 (14999 # 100)
          "Furniture Plus" "Warehouse B" "2024-01-01T00:00:00.000Z"))),
     Disk [laptop;
           make_item 2 "Desk Chair" "DC001" "Office" 20 (14999 # 100)
             "Furniture Plus" "Warehouse B" "2024-01-01T00:00:00.000Z";
           wireless_mouse] 1).
Proof. vm_compute. reflexivity. Qed.

(** ** Validation on create *)



(** ** Path segments that are not numbers *)




(** ** Failed mutations *)

(** C8. A create, update or delete that answers 400 or 404 leaves the
    data file exactly as it was: same contents, and [writeData] was not
    called. *)
Theorem failed_mutation_no_effect StringToNumber ObjectToNumber r d res d' :
  is_mutation r = true →
  handle StringToNumber ObjectToNumber r d = (Ok res, d') →
  res_status res = 400%nat ∨ res_status res = 404%nat →
  d' = d.
Proof.
  intros Hmut Hrun Hfail.
  destruct r as [search category|id|now body|now id body|id];
    try discriminate; simpl in Hrun.
  - rewrite post_items_eq in Hrun. cbv zeta in Hrun.
    destruct (missing_required _); inversion Hrun; subst; [reflexivity|].
    simpl in Hfail. lia.
  - rewrite put_item_eq in Hrun.
    destruct (findIndex _ _) as [index|];
      [|inversion Hrun; reflexivity].
    destruct (data_file d !! index);
      inversion Hrun; subst; [|reflexivity].
    simpl in Hfail. lia.
  - rewrite delete_item_eq in Hrun. cbv zeta in Hrun.
    destruct (_ =? _)%nat; inversion Hrun; subst; [reflexivity|].
    simpl in Hfail. lia.
Qed.

Lemma failed_mutation_no_effect_witness :
  (handle no_coercion no_coercion (DeleteItem "9") (Disk initialData 0)).2
  = Disk initialData 0.
Proof.
  apply (failed_mutation_no_effect no_coercion no_coercion
           (DeleteItem "9") (Disk initialData 0)
           (Res 404 (Error "Item not found"))).
  - reflexivity.
  - vm_compute. reflexivity.
  - right. reflexivity.
Defined.

(** ** Several items with one id *)

(** C10. Let [first] be the first item in storage order that the path id
    matches, whatever follows it.  Get returns [first]; update rewrites
    the position of [first] only, so later items with the same id stay as
    they are; delete removes [first] and every later item with that id,
    in one write. *)
Theorem duplicate_ids_first_or_all now id body d pre first post :
  data_file d = pre ++ first :: post →
  Forall (λ i, id_matches id i = false) pre →
  id_matches id first = true →
  get_item id d = (Ok (Res 200 (Item first)), d) ∧
  put_item now id body d =
    (Ok (Res 200 (Item (make_updated_item now body first))),
     Disk (pre ++ make_updated_item now body first :: post) (S (writes d))) ∧
  delete_item id d =
    (Ok (Res 204 NoContent),
     Disk (pre ++ List.filter (λ i, negb (id_matches id i)) post)
          (S (writes d))) ∧
  Forall (λ i, id_matches id i = false)
    (pre ++ List.filter (λ i, negb (id_matches id i)) post).
Proof.
  intros Hd Hpre Hfirst. repeat split.
  - rewrite get_item_eq, Hd, (find_first _ _ _ _ Hpre Hfirst). reflexivity.
  - rewrite put_item_eq, Hd, (findIndex_first _ _ _ _ Hpre Hfirst).
    rewrite list_lookup_middle by reflexivity. cbv zeta.
    rewrite insert_app_r_alt, Nat.sub_diag by lia. reflexivity.
  - rewrite delete_item_eq, Hd. cbv zeta.
    rewrite List.filter_app, (filter_negb_all _ _ Hpre). simpl.
    rewrite Hfirst. simpl.
    pose proof (filter_length_le (λ i, negb (id_matches id i)) post) as Hle.
    destruct (_ =? _)%nat eqn:Hlen; [|reflexivity].
    apply Nat.eqb_eq in Hlen.
    rewrite !length_app in Hlen. simpl in Hlen. lia.
  - apply Forall_app. split; [exact Hpre|].
    eapply Forall_impl; [apply filter_all_true|].
    intros i Hi. simpl in Hi. apply negb_true_iff. exact Hi.
Qed.

Lemma duplicate_ids_first_or_all_witness :
  get_item "1" (Disk [desk_chair; laptop; laptop_twin] 0)
    = (Ok (Res 200 (Item laptop)), Disk [desk_chair; laptop; laptop_twin] 0) ∧
  put_item "2024-01-01T00:00:00.000Z" "1" ∅
      (Disk [desk_chair; laptop; laptop_twin] 0)
    = (Ok (Res 200 (Item (make_updated_item "2024-01-01T00:00:00.000Z" ∅ laptop))),
       Disk [desk_chair;
             make_updated_item "2024-01-01T00:00:00.000Z" ∅ laptop;
             laptop_twin] 1) ∧
  delete_item "1" (Disk [desk_chair; laptop; laptop_twin] 0)
    = (Ok (Res 204 NoContent), Disk [desk_chair] 1) ∧
  Forall (λ i, id_matches "1" i = false) [desk_chair].
Proof.
  apply (duplicate_ids_first_or_all "2024-01-01T00:00:00.000Z" "1" ∅
           (Disk [desk_chair; laptop; laptop_twin] 0)
           [desk_chair] laptop [laptop_twin]).
  - reflexivity.
  - repeat constructor.
  - reflexivity.
Defined.

(** ** What each operation leaves alone *)


(** ** Substrings and case *)

Lemma starts_with_spec needle hay :
  starts_with needle hay = true ↔ ∃ post, hay = needle +:+ post.
Proof.
  revert hay. induction needle as [|a needle IH]; intros hay; simpl.
  - split; [intros _; exists hay; reflexivity | reflexivity].
  - destruct hay as [|b hay].
    + split; [discriminate | intros [post [=]]].
    + rewrite andb_true_iff, bool_decide_eq_true, IH. split.
      * intros [-> [post ->]]. exists post. reflexivity.
      * intros [post [= -> ->]]. split; [reflexivity | eauto].
Qed.

Lemma includes_spec hay needle :
  includes hay needle = true ↔ ∃ pre post, hay = pre +:+ needle +:+ post.
Proof.
  induction hay as [|c hay IH]; simpl.
  - rewrite orb_false_r, starts_with_spec. split.
    + intros [post ->]. exists "", post. reflexivity.
    + intros [[|? pre] [post H]]; [exists post; exact H | discriminate].
  - rewrite orb_true_iff, starts_with_spec, IH. split.
    + intros [[post ->] | (pre & post & ->)].
      * exists "", post. reflexivity.
      * exists (String c pre), post. reflexivity.
    + intros [[|c' pre] [post H]].
      * left. exists post. exact H.
      * right. simpl in H. injection H as -> ->. eauto.
Qed.

Lemma toLowerCase_app a b :
  toLowerCase (a +:+ b) = toLowerCase a +:+ toLowerCase b.
Proof. induction a as [|c a IH]; simpl; [reflexivity | rewrite IH; reflexivity]. Qed.

Lemma toLowerCase_split s a b :
  toLowerCase s = a +:+ b →
  ∃ s1 s2, s = s1 +:+ s2 ∧ toLowerCase s1 = a ∧ toLowerCase s2 = b.
Proof.
  revert s. induction a as [|c a IH]; intros s H.
  - exists "", s. auto.
  - destruct s as [|c' s]; [discriminate|]. simpl in H.
    injection H as Hc Hs. destruct (IH s Hs) as (s1 & s2 & -> & H1 & H2).
    exists (String c' s1), s2. simpl. rewrite H1, Hc. auto.
Qed.

Lemma toLowerCase_empty s : toLowerCase s = "" → s = "".
Proof. destruct s; [reflexivity | discriminate]. Qed.

Lemma lower_char_code c :
  nat_of_ascii (lower_char c) =
    let n := nat_of_ascii c in
    if (65 <=? n)%nat && (n <=? 90)%nat then (n + 32)%nat else n.
Proof.
  unfold lower_char. cbv zeta.
  destruct ((65 <=? _)%nat && (_ <=? 90)%nat) eqn:Hup; [|reflexivity].
  apply nat_ascii_embedding.
  apply andb_true_iff in Hup as [_ Hle]. apply Nat.leb_le in Hle. lia.
Qed.

Lemma lower_char_same_letter a b :
  lower_char a = lower_char b ↔ same_letter a b.
Proof.
  unfold same_letter. cbv zeta. split.
  - intros H. apply (f_equal nat_of_ascii) in H.
    rewrite !lower_char_code in H. cbv zeta in H.
    destruct (65 <=? nat_of_ascii a)%nat eqn:Ha1,
             (nat_of_ascii a <=? 90)%nat eqn:Ha2,
             (65 <=? nat_of_ascii b)%nat eqn:Hb1,
             (nat_of_ascii b <=? 90)%nat eqn:Hb2; simpl in H;
      rewrite ?Nat.leb_le, ?Nat.leb_gt in *; lia.
  - intros H.
    rewrite <- (ascii_nat_embedding (lower_char a)),
            <- (ascii_nat_embedding (lower_char b)).
    f_equal. rewrite !lower_char_code. cbv zeta.
    destruct (65 <=? nat_of_ascii a)%nat eqn:Ha1,
             (nat_of_ascii a <=? 90)%nat eqn:Ha2,
             (65 <=? nat_of_ascii b)%nat eqn:Hb1,
             (nat_of_ascii b <=? 90)%nat eqn:Hb2; simpl;
      rewrite ?Nat.leb_le, ?Nat.leb_gt in *; lia.
Qed.

Lemma toLowerCase_same_ignoring_case a b :
  toLowerCase a = toLowerCase b ↔ same_ignoring_case a b.
Proof.
  unfold same_ignoring_case. revert b.
  induction a as [|c a IH]; intros [|c' b]; simpl.
  - split; [intros _; split; [reflexivity | intros ? ? ? [=]] | reflexivity].
  - split; [discriminate | intros [[=] _]].
  - split; [discriminate | intros [[=] _]].
  - split.
    + intros [= Hc Hs]. apply IH in Hs as [Hlen Hget].
      split; [congruence|].
      intros [|n] x y; simpl.
      * intros [= <-] [= <-]. apply lower_char_same_letter, Hc.
      * apply Hget.
    + intros [[= Hlen] Hget]. f_equal.
      * apply lower_char_same_letter. apply (Hget 0%nat); reflexivity.
      * apply IH. split; [exact Hlen|].
        intros n x y. apply (Hget (S n)).
Qed.

(** What the search filter tests, with [toLowerCase] applied to both
    sides, is containment up to case. *)
Lemma includes_ignoring_case field term :
  includes (toLowerCase field) (toLowerCase term) = true
  ↔ contains_ignoring_case field term.
Proof.
  rewrite includes_spec. unfold contains_ignoring_case.
  split.
  - intros (pre' & post' & H).
    apply toLowerCase_split in H as (pre & rest & -> & <- & H).
    apply toLowerCase_split in H as (mid & post & -> & Hmid & <-).
    exists pre, mid, post. split; [reflexivity|].
    apply toLowerCase_same_ignoring_case, Hmid.
  - intros (pre & mid & post & -> & Hmid).
    apply toLowerCase_same_ignoring_case in Hmid.
    exists (toLowerCase pre), (toLowerCase post).
    rewrite !toLowerCase_app, Hmid. reflexivity.
Qed.

(** ** Listing *)

Lemma filter_filter_andb {A} (f g : A → bool) l :
  List.filter g (List.filter f l) = List.filter (λ x, f x && g x) l.
Proof.
  induction l as [|x l IH]; simpl; [reflexivity|].
  destruct (f x); simpl; [destruct (g x)|]; rewrite IH; reflexivity.
Qed.

Lemma filter_throwing_ok {A} (p : A → outcome bool) (f : A → bool) l :
  Forall (λ x, p x = Ok (f x)) l →
  filter_throwing p l = Ok (List.filter f l).
Proof.
  induction 1 as [|x l Hx _ IH]; simpl; [reflexivity|].
  rewrite Hx, IH. simpl. destruct (f x); reflexivity.
Qed.

Lemma guarded_includes_ok v term :
  term ≠ "" → optional_string v →
  guarded_includes v term = Ok (field_includes v term).
Proof.
  intros Hterm [-> | [-> | [s ->]]]; try reflexivity.
  unfold guarded_includes. simpl.
  destruct (bool_decide (s = "")) eqn:Hs; simpl; [|reflexivity].
  apply bool_decide_eq_true in Hs as ->. simpl.
  destruct term; [congruence | reflexivity].
Qed.

Lemma search_callback_ok term item :
  term ≠ "" → well_shaped item →
  search_callback term item = Ok (search_keep term item).
Proof.
  intros Hterm ([name Hname] & [sku Hsku] & Hsup & Hloc).
  unfold search_callback, search_keep.
  rewrite (guarded_includes_ok _ _ Hterm Hsup),
          (guarded_includes_ok _ _ Hterm Hloc), Hname, Hsku. simpl.
  destruct (includes (toLowerCase name) term); [reflexivity|]. simpl.
  destruct (includes (toLowerCase sku) term); [reflexivity|]. simpl.
  destruct (field_includes (item !! "supplier") term); reflexivity.
Qed.

Lemma field_includes_spec v search :
  field_includes v (toLowerCase search) = true
  ↔ ∃ s, v = Some (VStr s) ∧ contains_ignoring_case s search.
Proof.
  unfold field_includes. split.
  - destruct v as [[| | |s| |]|]; try discriminate.
    intros H. exists s. split; [reflexivity|].
    apply includes_ignoring_case, H.
  - intros (s & -> & H). apply includes_ignoring_case, H.
Qed.

Lemma search_keep_spec search item :
  search_keep (toLowerCase search) item = true ↔ matches_search search item.
Proof.
  unfold search_keep, matches_search.
  rewrite !orb_true_iff, !field_includes_spec. split.
  - intros [[[(s & H & Hc) | (s & H & Hc)] | (s & H & Hc)] | (s & H & Hc)];
      eexists _, s; (split; [|split; [exact H | exact Hc]]); set_solver.
  - intros (k & s & Hk & H & Hc).
    repeat (apply elem_of_cons in Hk as [-> | Hk]); [| | | | inversion Hk];
      eauto 10.
Qed.

Lemma category_callback_spec c item :
  category_callback c item = true ↔ matches_category c item.
Proof.
  unfold category_callback, matches_category, strict_eq_string.
  destruct (item !! "category") as [[| | |s| |]|];
    try (split; [discriminate | intros [=]]).
  rewrite bool_decide_eq_true. split; [intros -> | intros [= ->]]; reflexivity.
Qed.



Lemma initialData_well_shaped : Forall well_shaped initialData.
Proof.
  do 3 (constructor; [repeat split; try (eexists; reflexivity);
                      right; right; eexists; reflexivity|]).
  constructor.
Qed.

Lemma initialData_ascii : Forall ascii_searched initialData.
Proof.
  do 3 (constructor;
        [intros k s Hk Hs;
         repeat (apply elem_of_cons in Hk as [-> | Hk]);
         [..| inversion Hk]; injection Hs as <-; reflexivity|]).
  constructor.
Qed.



(** The seed scenarios of the search filter: the term matches whatever
    its case, and the category must match exactly. *)
Example search_mouse :
  get_items (Some "mouse") None (Disk initialData 0)
    = (Ok (Res 200 (Items [wireless_mouse])), Disk initialData 0) ∧
  get_items (Some "MOUSE") None (Disk initialData 0)
    = (Ok (Res 200 (Items [wireless_mouse])), Disk initialData 0) ∧
  get_items None (Some "Electronics") (Disk initialData 0)
    = (Ok (Res 200 (Items [laptop; wireless_mouse])), Disk initialData 0) ∧
  get_items None (Some "electronics") (Disk initialData 0)
    = (Ok (Res 200 (Items [])), Disk initialData 0).
Proof. repeat split; vm_compute; reflexivity. Qed.

(** ** Identifier assignment *)

Section NextId.

Variable StringToNumber : string → number.
Variable ObjectToNumber : value → number.

Lemma fold_max_numeric items a :
  numeric_ids items →
  ∃ m, fold_left num_max
         (map (λ i : object, ToNumber StringToNumber ObjectToNumber (i !! "id"))
              items) (Num a)
       = Num m ∧
       (a <= m)%Q ∧ ids_at_most m items ∧
       (m = a ∨ ∃ i, i ∈ items ∧ i !! "id" = Some (VNum m)).
Proof.
  intros Hnum. revert a.
  induction Hnum as [|x items [q Hq] _ IH]; intros a; simpl.
  - exists a. split; [reflexivity|]. split; [lra|]. split; [constructor|].
    left. reflexivity.
  - rewrite Hq. simpl.
    destruct (Qle_bool a q) eqn:Hle.
    + apply Qle_bool_iff in Hle.
      destruct (IH q) as (m & Hm & Hqm & Hall & Hwho).
      exists m. split; [exact Hm|]. split; [lra|]. split.
      * constructor; [exists q; split; [exact Hq | exact Hqm] | exact Hall].
      * right. destruct Hwho as [-> | (i & Hi & Hid)].
        -- exists x. split; [left | exact Hq].
        -- exists i. split; [right; exact Hi | exact Hid].
    + assert (q < a)%Q as Hlt.
      { apply Qnot_le_lt. intros H. apply Qle_bool_iff in H. congruence. }
      destruct (IH a) as (m & Hm & Ham & Hall & Hwho).
      exists m. split; [exact Hm|]. split; [exact Ham|]. split.
      * constructor; [exists q; split; [exact Hq | lra] | exact Hall].
      * destruct Hwho as [-> | (i & Hi & Hid)]; [left; reflexivity|].
        right. exists i. split; [right; exact Hi | exact Hid].
Qed.

(** Over a non-empty collection of numeric ids the next id is [m + 1]
    where [m] is the id of a stored item and no stored id exceeds it. *)
Lemma next_id_numeric items :
  numeric_ids items → items ≠ [] →
  ∃ m, next_id StringToNumber ObjectToNumber items = Num (m + 1) ∧
       ids_at_most m items ∧
       ∃ i, i ∈ items ∧ i !! "id" = Some (VNum m).
Proof.
  intros Hnum Hne. destruct items as [|x items]; [congruence|].
  inversion Hnum as [|? ? [q Hq] Hrest]; subst.
  unfold next_id. simpl. rewrite Hq. simpl.
  unfold Math_max.
  destruct (fold_max_numeric items q Hrest) as (m & -> & Hqm & Hall & Hwho).
  exists m. split; [reflexivity|]. split.
  - constructor; [exists q; split; [exact Hq | exact Hqm] | exact Hall].
  - destruct Hwho as [-> | (i & Hi & Hid)].
    + exists x. split; [left | exact Hq].
    + exists i. split; [right; exact Hi | exact Hid].
Qed.

Lemma next_id_empty : next_id StringToNumber ObjectToNumber [] = Num 1.
Proof. reflexivity. Qed.

(** The next id over numeric ids is a number that no stored item has. *)
Lemma next_id_fresh items :
  numeric_ids items →
  ∃ n, next_id StringToNumber ObjectToNumber items = Num n ∧
       Forall (λ i : object, ∃ q, i !! "id" = Some (VNum q) ∧ (q < n)%Q) items.
Proof.
  intros Hnum. destruct items as [|x items].
  - exists 1%Q. split; [reflexivity | constructor].
  - destruct (next_id_numeric (x :: items) Hnum) as (m & Hm & Hall & _);
      [discriminate|].
    exists (m + 1)%Q. split; [exact Hm|].
    eapply Forall_impl; [exact Hall|].
    intros i (q & Hq & Hle). exists q. split; [exact Hq | lra].
Qed.

End NextId.

(** ** Create *)

Section Create.

Variable StringToNumber : string → number.
Variable ObjectToNumber : value → number.


(** An [id] in the body overrides the id the server computed: the spread
    of the body comes after the [id] property in the object literal. *)
Lemma post_items_body_id now body d v :
  body !! "id" = Some v →
  missing_required
    (make_new_item StringToNumber ObjectToNumber now body (data_file d))
  = false →
  ∃ item,
    post_items StringToNumber ObjectToNumber now body d =
      (Ok (Res 201 (Item item)), Disk (data_file d ++ [item]) (S (writes d))) ∧
    item !! "id" = Some v.
Proof.
  intros Hid Hvalid. rewrite post_items_eq. cbv zeta. rewrite Hvalid.
  eexists. split; [reflexivity|]. rewrite new_item_id, Hid. reflexivity.
Qed.

(** Without an [id] in the body, and over numeric ids, the created record
    gets the next id, which is above every stored id. *)
Lemma post_items_fresh_id now body d :
  numeric_ids (data_file d) →
  body !! "id" = None →
  missing_required
    (make_new_item StringToNumber ObjectToNumber now body (data_file d))
  = false →
  ∃ item n,
    post_items StringToNumber ObjectToNumber now body d =
      (Ok (Res 201 (Item item)), Disk (data_file d ++ [item]) (S (writes d))) ∧
    next_id StringToNumber ObjectToNumber (data_file d) = Num n ∧
    item !! "id" = Some (VNum n) ∧
    Forall (λ i : object, ∃ q, i !! "id" = Some (VNum q) ∧ (q < n)%Q)
      (data_file d).
Proof.
  intros Hnum Hid Hvalid. rewrite post_items_eq. cbv zeta. rewrite Hvalid.
  destruct (next_id_fresh StringToNumber ObjectToNumber _ Hnum)
    as (n & Hn & Hbelow).
  eexists _, n. split; [reflexivity|]. split; [exact Hn|].
  split; [|exact Hbelow].
  rewrite new_item_id, Hid, Hn. reflexivity.
Qed.

(** Such a create keeps the ids numeric and pairwise distinct. *)
Lemma post_items_keeps_distinct now body d res d' :
  numeric_ids (data_file d) →
  distinct_ids (data_file d) →
  body !! "id" = None →
  post_items StringToNumber ObjectToNumber now body d = (Ok res, d') →
  numeric_ids (data_file d') ∧ distinct_ids (data_file d').
Proof.
  intros Hnum Hdist Hid Hrun.
  destruct (missing_required
              (make_new_item StringToNumber ObjectToNumber now body
                 (data_file d))) eqn:Hv.
  - rewrite post_items_eq in Hrun. cbv zeta in Hrun. rewrite Hv in Hrun.
    inversion Hrun; subst. split; assumption.
  - destruct (post_items_fresh_id now body d Hnum Hid Hv)
      as (item & n & Hpost & _ & Hitem & Hbelow).
    rewrite Hpost in Hrun. inversion Hrun; subst. simpl. split.
    + apply Forall_app. split; [exact Hnum|].
      constructor; [eauto | constructor].
    + assert (∀ i a qa, data_file d !! i = Some a →
                a !! "id" = Some (VNum qa) → (qa < n)%Q) as Hlt.
      { intros i a qa Ha Hqa. rewrite Forall_forall in Hbelow.
        destruct (Hbelow a) as (q & Hq & Hqn);
          [apply list_elem_of_lookup; eauto|].
        rewrite Hq in Hqa. injection Hqa as <-. exact Hqn. }
      intros i j a b qa qb Ha Hb Hqa Hqb Heq.
      apply lookup_app_Some in Ha as [Ha | [Hi Ha]];
        apply lookup_app_Some in Hb as [Hb | [Hj Hb]].
      * eapply Hdist; eassumption.
      * apply list_lookup_singleton_Some in Hb as [_ <-].
        rewrite Hitem in Hqb. injection Hqb as <-.
        pose proof (Hlt _ _ _ Ha Hqa). lra.
      * apply list_lookup_singleton_Some in Ha as [_ <-].
        rewrite Hitem in Hqa. injection Hqa as <-.
        pose proof (Hlt _ _ _ Hb Hqb). lra.
      * apply list_lookup_singleton_Some in Ha as [Hi0 _].
        apply list_lookup_singleton_Some in Hb as [Hj0 _]. lia.
Qed.

(** Such a create followed by a get of the returned id yields the created
    record. *)
Lemma post_items_then_get now body d :
  numeric_ids (data_file d) →
  body !! "id" = None →
  missing_required
    (make_new_item StringToNumber ObjectToNumber now body (data_file d))
  = false →
  ∃ item n d',
    post_items StringToNumber ObjectToNumber now body d
      = (Ok (Res 201 (Item item)), d') ∧
    item !! "id" = Some (VNum n) ∧
    ∀ id q, parseInt id = Num q → (q == n)%Q →
            get_item id d' = (Ok (Res 200 (Item item)), d').
Proof.
  intros Hnum Hid Hvalid.
  destruct (post_items_fresh_id now body d Hnum Hid Hvalid)
    as (item & n & Hpost & _ & Hitem & Hbelow).
  eexists item, n, _. split; [exact Hpost|]. split; [exact Hitem|].
  intros id q Hparse Hq. rewrite get_item_eq. simpl.
  rewrite (find_first (id_matches id) (data_file d) item []); [reflexivity| |].
  - eapply Forall_impl; [exact Hbelow|].
    intros i (qi & Hqi & Hlt). unfold id_matches.
    rewrite Hqi, Hparse. simpl.
    destruct (Qeq_bool qi q) eqn:He; [|reflexivity].
    apply Qeq_bool_iff in He. lra.
  - unfold id_matches. rewrite Hitem, Hparse. simpl.
    apply Qeq_bool_iff. lra.
Qed.

End Create.

(** The scenario of the specification: the first create on an empty
    collection gets id 1, and after that item is deleted the next create
    gets id 1 again. *)
Example create_delete_create :
  ∃ widget gadget,
    post_items no_coercion no_coercion "2024-01-01T00:00:00.000Z"
      (required_fields "Widget" "W1" 5 (999 # 100)) (Disk [] 0)
    = (Ok (Res 201 (Item widget)), Disk [widget] 1) ∧
    widget !! "id" = Some (VNum 1) ∧
    delete_item "1" (Disk [widget] 1) = (Ok (Res 204 NoContent), Disk [] 2) ∧
    post_items no_coercion no_coercion "2024-01-02T00:00:00.000Z"
      (required_fields "Gadget" "G1" 2 (45 # 10)) (Disk [] 2)
    = (Ok (Res 201 (Item gadget)), Disk [gadget] 3) ∧
    gadget !! "id" = Some (VNum 1).
Proof.
  eexists _, _. repeat split; vm_compute; reflexivity.
Qed.

(** C1 on the code: over the seed collection (ids 1, 2, 3) the server
    computes 4 as the next id, but a create whose body carries [id: 7]
    answers 201 with a record whose id is 7, and persists it. *)
Theorem post_items_takes_body_id :
  let item := <["lastUpdated" := VStr "2024-01-01T00:00:00.000Z"]>
                (body_with_id 7) in
  next_id no_coercion no_coercion initialData = Num 4 ∧
  post_items no_coercion no_coercion "2024-01-01T00:00:00.000Z"
    (body_with_id 7) (Disk initialData 0)
  = (Ok (Res 201 (Item item)), Disk (initialData ++ [item]) 1) ∧
  item !! "id" = Some (VNum 7).
Proof.
  cbv zeta. split; [|split].
  - vm_compute. reflexivity.
  - vm_compute. reflexivity.
  - reflexivity.
Qed.

(** C2 on the code: two successful creates in a row, both with [id: 5]
    in the body, leave two records with id 5 in the persisted
    collection. *)
Theorem two_creates_one_id :
  let first := <["lastUpdated" := VStr "2024-01-01T00:00:00.000Z"]>
                 (body_with_id 5) in
  let second := <["lastUpdated" := VStr "2024-01-02T00:00:00.000Z"]>
                  (body_with_id 5) in
  post_items no_coercion no_coercion "2024-01-01T00:00:00.000Z"
    (body_with_id 5) (Disk [] 0)
  = (Ok (Res 201 (Item first)), Disk [first] 1) ∧
  post_items no_coercion no_coercion "2024-01-02T00:00:00.000Z"
    (body_with_id 5) (Disk [first] 1)
  = (Ok (Res 201 (Item second)), Disk [first; second] 2) ∧
  first !! "id" = Some (VNum 5) ∧
  second !! "id" = Some (VNum 5) ∧
  ¬ distinct_ids [first; second].
Proof.
  cbv zeta. split; [|split; [|split; [|split]]].
  - vm_compute. reflexivity.
  - vm_compute. reflexivity.
  - reflexivity.
  - reflexivity.
  - intros Hdistinct.
    assert (0 = 1)%nat as Hsame; [|discriminate Hsame].
    apply (Hdistinct 0%nat 1%nat _ _ 5%Q 5%Q eq_refl eq_refl);
      reflexivity.
Qed.

(** C9 on the code: over the seed collection a create whose body carries
    [id: 1] is accepted and returns a record with id 1; the get of id 1
    that follows returns the laptop, the first stored record with that
    id, and not the record just created. *)
Theorem create_then_get_other_record :
  let created := <["lastUpdated" := VStr "2024-01-01T00:00:00.000Z"]>
                   (body_with_id 1) in
  post_items no_coercion no_coercion "2024-01-01T00:00:00.000Z"
    (body_with_id 1) (Disk initialData 0)
  = (Ok (Res 201 (Item created)), Disk (initialData ++ [created]) 1) ∧
  created !! "id" = Some (VNum 1) ∧
  get_item "1" (Disk (initialData ++ [created]) 1)
  = (Ok (Res 200 (Item laptop)), Disk (initialData ++ [created]) 1) ∧
  laptop !! "productName" = Some (VStr "Laptop") ∧
  created !! "productName" = Some (VStr "Widget").
Proof.
  cbv zeta. split; [|split; [|split; [|split]]].
  - vm_compute. reflexivity.
  - reflexivity.
  - vm_compute. reflexivity.
  - reflexivity.
  - reflexivity.
Qed.

(** * Further properties of the server *)

(** ** Ids under update and delete *)

Lemma distinct_ids_cons x l :
  distinct_ids (x :: l) ↔
  (∀ qa b qb, x !! "id" = Some (VNum qa) → b ∈ l →
              b !! "id" = Some (VNum qb) → ¬ (qa == qb)%Q) ∧
  distinct_ids l.
Proof.
  split.
  - intros H. split.
    + intros qa b qb Hx Hb Hqb Heq.
      apply list_elem_of_lookup in Hb as [j Hj].
      discriminate (H 0%nat (S j) x b qa qb eq_refl Hj Hx Hqb Heq).
    + intros i j a b qa qb Ha Hb Hqa Hqb Heq.
      pose proof (H (S i) (S j) a b qa qb Ha Hb Hqa Hqb Heq). lia.
  - intros [Hx Hl] [|i] [|j] a b qa qb Ha Hb Hqa Hqb Heq; simpl in *.
    + reflexivity.
    + injection Ha as <-. exfalso.
      apply (Hx qa b qb Hqa); [apply list_elem_of_lookup; eauto | exact Hqb | exact Heq].
    + injection Hb as <-. exfalso.
      apply (Hx qb a qa Hqb); [apply list_elem_of_lookup; eauto | exact Hqa |].
      symmetry. exact Heq.
    + f_equal. eapply Hl; eassumption.
Qed.

Lemma distinct_ids_filter (p : object → bool) l :
  distinct_ids l → distinct_ids (List.filter p l).
Proof.
  induction l as [|x l IH]; simpl; [intros H; exact H|].
  intros H. apply distinct_ids_cons in H as [Hx Hl].
  destruct (p x); [|apply IH, Hl].
  apply distinct_ids_cons. split; [|apply IH, Hl].
  intros qa b qb Hqa Hb. apply (Hx qa b qb Hqa).
  apply list_elem_of_In, filter_In in Hb as [Hb _].
  apply list_elem_of_In, Hb.
Qed.

Lemma numeric_ids_filter (p : object → bool) l :
  numeric_ids l → numeric_ids (List.filter p l).
Proof.
  unfold numeric_ids. rewrite !Forall_forall. intros H x Hx.
  apply H. apply list_elem_of_In, filter_In in Hx as [Hx _].
  apply list_elem_of_In, Hx.
Qed.

Lemma ids_of_lookup l l' i (a : object) :
  ids_of l = ids_of l' → l' !! i = Some a →
  ∃ a0, l !! i = Some a0 ∧ a0 !! "id" = a !! "id".
Proof.
  unfold ids_of. intros Hids Ha.
  assert (((λ i : object, i !! "id") <$> l) !! i = Some (a !! "id")) as H.
  { rewrite Hids, list_lookup_fmap, Ha. reflexivity. }
  rewrite list_lookup_fmap in H.
  destruct (l !! i) as [a0|]; [|discriminate].
  injection H as H. eauto.
Qed.

Lemma numeric_ids_same_ids l l' :
  ids_of l = ids_of l' → numeric_ids l → numeric_ids l'.
Proof.
  unfold numeric_ids. rewrite !Forall_forall. intros Hids H a Ha.
  apply list_elem_of_lookup in Ha as [i Hi].
  destruct (ids_of_lookup _ _ _ _ Hids Hi) as (a0 & Ha0 & <-).
  apply H. apply list_elem_of_lookup. eauto.
Qed.

Lemma distinct_ids_same_ids l l' :
  ids_of l = ids_of l' → distinct_ids l → distinct_ids l'.
Proof.
  intros Hids H i j a b qa qb Ha Hb Hqa Hqb Heq.
  destruct (ids_of_lookup _ _ _ _ Hids Ha) as (a0 & Ha0 & Hida).
  destruct (ids_of_lookup _ _ _ _ Hids Hb) as (b0 & Hb0 & Hidb).
  rewrite <- Hida in Hqa. rewrite <- Hidb in Hqb.
  exact (H i j a0 b0 qa qb Ha0 Hb0 Hqa Hqb Heq).
Qed.

Lemma put_item_ids now id body d :
  ids_of (data_file (put_item now id body d).2) = ids_of (data_file d).
Proof.
  rewrite put_item_eq.
  destruct (findIndex _ _) as [index|]; [|reflexivity].
  destruct (data_file d !! index) as [existing|] eqn:Hlook; [|reflexivity].
  simpl. unfold ids_of. rewrite list_fmap_insert.
  apply list_insert_id. rewrite list_lookup_fmap, Hlook. simpl.
  rewrite updated_item_id. reflexivity.
Qed.

(** X1. An update never changes which id sits at which position: the
    document has the same length and the same id in every position
    before and after any [PUT], whether it answers 200 or 404 and
    whatever id the body carries. *)
Theorem put_item_preserves_ids now id body d :
  List.length (data_file (put_item now id body d).2)
    = List.length (data_file d) ∧
  ∀ j, ((data_file (put_item now id body d).2 !! j) ≫= (λ i : object, i !! "id"))
       = ((data_file d !! j) ≫= (λ i : object, i !! "id")).
Proof.
  pose proof (put_item_ids now id body d) as Hids. unfold ids_of in Hids.
  split.
  - apply (f_equal List.length) in Hids.
    rewrite !length_fmap in Hids. exact Hids.
  - intros j. apply (f_equal (λ l, l !! j)) in Hids.
    rewrite !list_lookup_fmap in Hids.
    destruct (data_file (put_item now id body d).2 !! j),
             (data_file d !! j); simpl in *; congruence.
Qed.

(** ** Delete *)

Lemma delete_item_leaves_no_match id d :
  Forall (λ i, id_matches id i = false) (data_file (delete_item id d).2).
Proof.
  rewrite delete_item_eq. cbv zeta.
  destruct (_ =? _)%nat eqn:Hlen; simpl.
  - apply Nat.eqb_eq, filter_length_eq in Hlen. rewrite <- Hlen.
    eapply Forall_impl; [apply filter_all_true|].
    intros i Hi. simpl in Hi. apply negb_true_iff, Hi.
  - eapply Forall_impl; [apply filter_all_true|].
    intros i Hi. simpl in Hi. apply negb_true_iff, Hi.
Qed.

Lemma no_match_not_found now id body d :
  Forall (λ i, id_matches id i = false) (data_file d) →
  get_item id d = (Ok (Res 404 (Error "Item not found")), d) ∧
  put_item now id body d = (Ok (Res 404 (Error "Item not found")), d) ∧
  delete_item id d = (Ok (Res 404 (Error "Item not found")), d).
Proof.
  intros Hall. split; [|split].
  - rewrite get_item_eq, (find_none _ _ Hall). reflexivity.
  - rewrite put_item_eq.
    destruct (findIndex (id_matches id) (data_file d)) as [index|] eqn:Hidx;
      [|reflexivity].
    destruct (findIndex_Some _ _ _ Hidx) as (x & Hx & Hpx & _).
    rewrite Forall_forall in Hall.
    rewrite Hall in Hpx; [discriminate|].
    apply list_elem_of_lookup. eauto.
  - rewrite delete_item_eq. cbv zeta.
    rewrite (filter_negb_all _ _ Hall), Nat.eqb_refl. reflexivity.
Qed.

(** X2. Once a delete of a path id has been served, whatever it
    answered, that id is gone: a get, an update or a second delete with
    the same path id answers 404 and writes nothing.  In particular a
    repeated delete is answered 404, not 204. *)
Theorem delete_item_then_not_found now id body d :
  let d' := (delete_item id d).2 in
  get_item id d' = (Ok (Res 404 (Error "Item not found")), d') ∧
  put_item now id body d' = (Ok (Res 404 (Error "Item not found")), d') ∧
  delete_item id d' = (Ok (Res 404 (Error "Item not found")), d').
Proof.
  cbv zeta. apply no_match_not_found, delete_item_leaves_no_match.
Qed.

Lemma filter_negb_shorter {A} (p : A → bool) l :
  Exists (λ y, p y = true) l →
  (List.length (List.filter (λ y, negb (p y)) l) < List.length l)%nat.
Proof.
  induction 1 as [x l Hx | x l _ IH]; simpl.
  - rewrite Hx. simpl.
    pose proof (filter_length_le (λ y, negb (p y)) l). lia.
  - destruct (negb (p x)); simpl; [lia|].
    pose proof (filter_length_le (λ y, negb (p y)) l). lia.
Qed.

(** X3. A delete answers 204 exactly when some stored item has the path
    id; it then writes a strictly shorter document.  When no item has
    the id it answers 404 and the data file is untouched. *)
Theorem delete_item_succeeds_iff id d :
  (Exists (λ i, id_matches id i = true) (data_file d) →
     ∃ kept,
       delete_item id d = (Ok (Res 204 NoContent), Disk kept (S (writes d))) ∧
       (List.length kept < List.length (data_file d))%nat) ∧
  (¬ Exists (λ i, id_matches id i = true) (data_file d) →
     delete_item id d = (Ok (Res 404 (Error "Item not found")), d)).
Proof.
  split.
  - intros Hex. rewrite delete_item_eq. cbv zeta.
    pose proof (filter_negb_shorter _ _ Hex) as Hlt.
    destruct (_ =? _)%nat eqn:Hlen; [apply Nat.eqb_eq in Hlen; lia|].
    eexists. split; [reflexivity | exact Hlt].
  - intros Hno. apply (no_match_not_found "" id ∅).
    apply Forall_forall. intros i Hi.
    destruct (id_matches id i) eqn:Hm; [|reflexivity].
    exfalso. apply Hno. apply Exists_exists. eauto.
Qed.

(** ** Update followed by get *)

(** X4. After a successful update, a get with the same path id returns
    the record the update returned: the updated record keeps the id it
    was found by and still is the first stored record with that id. *)
Theorem put_item_then_get now id body d :
  Exists (λ i, id_matches id i = true) (data_file d) →
  ∃ merged d',
    put_item now id body d = (Ok (Res 200 (Item merged)), d') ∧
    get_item id d' = (Ok (Res 200 (Item merged)), d').
Proof.
  intros Hex. apply findIndex_Exists in Hex as [index Hindex].
  destruct (findIndex_Some _ _ _ Hindex) as (existing & Hlook & Hmatch & Hpre).
  exists (make_updated_item now body existing). eexists.
  split; [rewrite put_item_eq, Hindex, Hlook; reflexivity|].
  rewrite get_item_eq. simpl.
  rewrite insert_take_drop by (eapply lookup_lt_Some; exact Hlook).
  rewrite (find_first _ _ _ _ Hpre); [reflexivity|].
  unfold id_matches in *. rewrite updated_item_id. exact Hmatch.
Qed.

Lemma put_item_then_get_witness :
  ∃ merged d',
    put_item "2024-01-01T00:00:00.000Z" "2" update_body (Disk initialData 0)
      = (Ok (Res 200 (Item merged)), d') ∧
    get_item "2" d' = (Ok (Res 200 (Item merged)), d').
Proof.
  apply (put_item_then_get "2024-01-01T00:00:00.000Z" "2" update_body
           (Disk initialData 0)).
  apply Exists_cons_tl, Exists_cons_hd. reflexivity.
Defined.

Example delete_desk_chair :
  delete_item "2" (Disk initialData 0)
  = (Ok (Res 204 NoContent), Disk [laptop; wireless_mouse] 1).
Proof. vm_compute. reflexivity. Qed.

(** ** What a create accepts *)


(** A body whose quantity is [0] and whose price is [null]. *)
Example post_items_accepts_zero_and_null :
  ∃ item,
    post_items no_coercion no_coercion "2024-01-01T00:00:00.000Z"
      (<["productName" := VStr "Widget"]>
       (<["sku" := VStr "W1"]>
       (<["quantity" := VNum 0]>
       (<["price" := VNull]> ∅)))) (Disk [] 0)
    = (Ok (Res 201 (Item item)), Disk [item] 1).
Proof. eexists. vm_compute. reflexivity. Qed.

(** ** Writes *)

(** X6. Every request is answered (no exception leaves a handler), and
    the data file is written exactly once by a create, update or delete
    that answers 2xx, and not at all by any other request: a failed
    mutation, a get or a list leave it as it was. *)
Theorem one_write_per_successful_mutation StringToNumber ObjectToNumber r d :
  ∃ res d',
    handle StringToNumber ObjectToNumber r d = (Ok res, d') ∧
    if is_mutation r && is_success (res_status res)
    then writes d' = S (writes d)
    else d' = d.
Proof.
  destruct r as [search category|id|now body|now id body|id]; simpl.
  - rewrite get_items_eq. eauto.
  - rewrite get_item_eq. eauto.
  - rewrite post_items_eq. cbv zeta.
    destruct (missing_required _); eexists _, _; (split; [reflexivity|]);
      reflexivity.
  - rewrite put_item_eq.
    destruct (findIndex _ _) as [index|];
      [|eexists _, _; split; reflexivity].
    destruct (data_file d !! index);
      eexists _, _; (split; [reflexivity|]); reflexivity.
  - rewrite delete_item_eq. cbv zeta.
    destruct (_ =? _)%nat; eexists _, _; (split; [reflexivity|]); reflexivity.
Qed.

(** ** Listing over arbitrary stored items *)

Lemma filter_throwing_throws {A} (p : A → outcome bool) l :
  Exists (λ x, p x = Throw TypeError) l →
  filter_throwing p l = Throw TypeError.
Proof.
  induction 1 as [x l Hx | x l _ IH]; simpl.
  - rewrite Hx. reflexivity.
  - destruct (p x) as [b|[]]; simpl; [|reflexivity].
    rewrite IH. reflexivity.
Qed.

Lemma search_callback_type_error term item :
  productName_not_string item →
  search_callback term item = Throw TypeError.
Proof.
  intros Hnot. unfold search_callback, lower_includes.
  destruct (item !! "productName") as [[| | |s| |]|] eqn:Hname;
    try reflexivity.
  exfalso. apply (Hnot s). exact Hname.
Qed.

Lemma search_over_bad_item search category d :
  search ≠ "" →
  Exists productName_not_string (data_file d) →
  get_items (Some search) category d
  = (Ok (Res 500 (Error "Failed to fetch items")), d).
Proof.
  intros Hsearch Hbad. rewrite get_items_eq. unfold search_step. simpl.
  rewrite bool_decide_eq_false_2 by exact Hsearch. simpl.
  rewrite filter_throwing_throws; [reflexivity|].
  eapply Exists_impl; [exact Hbad|].
  intros item Hitem. apply search_callback_type_error, Hitem.
Qed.

(** X7. A list request with a non-empty search term answers 500 as soon
    as one stored item, anywhere in the collection, has a [productName]
    that is not a string: [toLowerCase] throws in the filter callback
    and the whole listing fails, also for the items that would have
    matched.  The data file is not touched. *)
Theorem get_items_search_type_error search category d :
  search ≠ "" →
  Exists productName_not_string (data_file d) →
  get_items (Some search) category d
  = (Ok (Res 500 (Error "Failed to fetch items")), d).
Proof.
  intros Hsearch Hbad. apply search_over_bad_item; assumption.
Qed.

Lemma get_items_search_type_error_witness :
  get_items (Some "mouse") None
    (Disk [wireless_mouse; <["productName" := VNum 5]> laptop] 0)
  = (Ok (Res 500 (Error "Failed to fetch items")),
     Disk [wireless_mouse; <["productName" := VNum 5]> laptop] 0).
Proof.
  apply (get_items_search_type_error "mouse" None
           (Disk [wireless_mouse; <["productName" := VNum 5]> laptop] 0)).
  - discriminate.
  - apply Exists_cons_tl, Exists_cons_hd. intros s. discriminate.
Defined.

(** X8. An update is not validated, so it can put the collection in
    that state: after a successful update whose body sets [productName]
    to anything but a string ([null], a number, ...), every list request
    with a non-empty search term answers 500. *)
Theorem put_item_breaks_search now id body v search category d :
  Exists (λ i, id_matches id i = true) (data_file d) →
  body !! "productName" = Some v →
  (∀ s, v ≠ VStr s) →
  search ≠ "" →
  let d' := (put_item now id body d).2 in
  get_items (Some search) category d'
  = (Ok (Res 500 (Error "Failed to fetch items")), d').
Proof.
  intros Hex Hbody Hv Hsearch. cbv zeta.
  apply search_over_bad_item; [exact Hsearch|].
  apply findIndex_Exists in Hex as [index Hindex].
  destruct (findIndex_Some _ _ _ Hindex) as (existing & Hlook & _).
  rewrite put_item_eq, Hindex, Hlook. simpl.
  apply Exists_exists. exists (make_updated_item now body existing). split.
  - apply list_elem_of_lookup. exists index.
    apply list_lookup_insert_eq. eapply lookup_lt_Some. exact Hlook.
  - intros s Hs. rewrite updated_item_field in Hs by discriminate.
    rewrite Hbody in Hs. simpl in Hs. injection Hs as Hs. exact (Hv s Hs).
Qed.

Lemma put_item_breaks_search_witness :
  let d' := (put_item "2024-01-01T00:00:00.000Z" "2"
               {["productName" := VNull]} (Disk initialData 0)).2 in
  get_items (Some "laptop") None d'
  = (Ok (Res 500 (Error "Failed to fetch items")), d').
Proof.
  apply (put_item_breaks_search "2024-01-01T00:00:00.000Z" "2"
           {["productName" := VNull]} VNull "laptop" None (Disk initialData 0)).
  - apply Exists_cons_tl, Exists_cons_hd. reflexivity.
  - reflexivity.
  - intros s. discriminate.
  - discriminate.
Defined.

(** X9. Without a search term (absent or empty) a list request cannot
    fail, whatever the stored items look like: it answers 200 with a
    subsequence of the collection, and for a non-empty category that
    subsequence holds exactly the items whose [category] is that string;
    an item without a category, or with one that is not a string, is
    simply left out. *)
Theorem get_items_without_search search category d :
  search = None ∨ search = Some "" →
  ∃ kept,
    get_items search category d = (Ok (Res 200 (Items kept)), d) ∧
    sublist kept (data_file d) ∧
    ∀ c, category = Some c → c ≠ "" →
         ∀ item, item ∈ kept ↔ item ∈ data_file d ∧ matches_category c item.
Proof.
  intros Hsearch. rewrite get_items_eq.
  assert (search_step search (data_file d) = Ok (data_file d)) as ->
    by (destruct Hsearch as [-> | ->]; reflexivity).
  eexists. split; [reflexivity|]. split.
  - unfold category_step. destruct category as [c|]; [|reflexivity].
    destruct (truthy _); [apply filter_sublist | reflexivity].
  - intros c -> Hc item. unfold category_step. simpl.
    rewrite bool_decide_eq_false_2 by exact Hc. simpl.
    rewrite list_elem_of_In, filter_In, <- list_elem_of_In,
      category_callback_spec.
    reflexivity.
Qed.

Lemma get_items_without_search_witness :
  ∃ kept,
    get_items None (Some "Office") (Disk initialData 0)
      = (Ok (Res 200 (Items kept)), Disk initialData 0) ∧
    sublist kept initialData ∧
    ∀ c, Some "Office" = Some c → c ≠ "" →
         ∀ item, item ∈ kept ↔ item ∈ initialData ∧ matches_category c item.
Proof.
  apply (get_items_without_search None (Some "Office") (Disk initialData 0)).
  left. reflexivity.
Defined.

(** ** The id of a new record *)

Lemma missing_required_new_item StringToNumber ObjectToNumber now body items :
  missing_required (make_new_item StringToNumber ObjectToNumber now body items)
  = missing_required body.
Proof.
  unfold missing_required. rewrite !new_item_field by discriminate.
  reflexivity.
Qed.







Lemma ids_between_integer lo hi items :
  ids_between lo hi items → integer_ids items.
Proof.
  intros H. eapply Forall_impl; [exact H|].
  intros i (q & z & Hq & Hz & _). eauto.
Qed.

Lemma ids_between_numeric lo hi items :
  ids_between lo hi items → numeric_ids items.
Proof.
  intros H. eapply Forall_impl; [exact H|].
  intros i (q & z & Hq & _). eauto.
Qed.

Lemma ids_between_weaken lo hi hi' items :
  (hi ≤ hi')%Z → ids_between lo hi items → ids_between lo hi' items.
Proof.
  intros Hle H. eapply Forall_impl; [exact H|].
  intros i (q & z & Hq & Hz & Hb). exists q, z. repeat split; auto; lia.
Qed.

(** Over integer ids between [lo] and [hi] the next id is an integer
    between [lo] and [hi + 1]. *)
Lemma next_id_between StringToNumber ObjectToNumber lo hi items :
  (lo ≤ 1)%Z → (0 ≤ hi)%Z →
  ids_between lo hi items →
  ∃ n z, next_id StringToNumber ObjectToNumber items = Num n ∧
         (n == inject_Z z)%Q ∧ (lo ≤ z ≤ hi + 1)%Z.
Proof.
  intros Hlo Hhi Hids. destruct items as [|x items].
  - exists 1%Q, 1%Z. split; [reflexivity|]. split; [reflexivity | lia].
  - destruct (next_id_numeric StringToNumber ObjectToNumber (x :: items))
      as (m & Hm & _ & holder & Hin & Hholder);
      [eapply ids_between_numeric, Hids | discriminate |].
    unfold ids_between in Hids. rewrite Forall_forall in Hids.
    destruct (Hids holder Hin) as (q & z & Hq & Hz & Hb).
    rewrite Hholder in Hq. injection Hq as <-.
    exists (m + 1)%Q, (z + 1)%Z. split; [exact Hm|]. split; [|lia].
    rewrite inject_Z_plus, Hz. reflexivity.
Qed.

(** X11. Over stored ids that are integers of magnitude below 2^53, an
    accepted create that leaves the id to the server gives the new
    record the id 1 when the collection is empty, and otherwise [m + 1]
    where [m] is the id of a stored item and no stored id is greater
    than [m]. *)
Theorem post_items_assigns_max_plus_one StringToNumber ObjectToNumber
    now body d :
  ids_between (- 2 ^ 53) (2 ^ 53 - 1) (data_file d) →
  body !! "id" = None →
  missing_required body = false →
  ∃ item,
    post_items StringToNumber ObjectToNumber now body d
    = (Ok (Res 201 (Item item)), Disk (data_file d ++ [item]) (S (writes d))) ∧
    ((data_file d = [] ∧ item !! "id" = Some (VNum 1)) ∨
     (∃ holder m,
        holder ∈ data_file d ∧ holder !! "id" = Some (VNum m) ∧
        ids_at_most m (data_file d) ∧
        item !! "id" = Some (VNum (m + 1)))).
Proof.
  intros Hids Hid Hvalid.
  pose proof (ids_between_numeric _ _ _ Hids) as Hnum.
  rewrite post_items_eq. cbv zeta.
  rewrite missing_required_new_item, Hvalid.
  eexists. split; [reflexivity|].
  rewrite new_item_id, Hid. simpl.
  destruct (data_file d) as [|x items] eqn:Hitems.
  - left. split; reflexivity.
  - right.
    destruct (next_id_numeric StringToNumber ObjectToNumber (x :: items) Hnum)
      as (m & Hm & Hall & holder & Hin & Hholder); [discriminate|].
    exists holder, m. rewrite Hm. auto.
Qed.

Lemma initialData_between : ids_between (- 2 ^ 53) 3 initialData.
Proof.
  repeat constructor; eexists _, _;
    (split; [reflexivity|]); (split; [reflexivity|]); lia.
Qed.

Lemma post_items_assigns_max_plus_one_witness :
  ∃ item,
    post_items no_coercion no_coercion "2024-01-01T00:00:00.000Z"
      (required_fields "Widget" "W1" 5 (999 # 100)) (Disk initialData 0)
    = (Ok (Res 201 (Item item)), Disk (initialData ++ [item]) 1) ∧
    ((initialData = [] ∧ item !! "id" = Some (VNum 1)) ∨
     (∃ holder m,
        holder ∈ initialData ∧ holder !! "id" = Some (VNum m) ∧
        ids_at_most m initialData ∧
        item !! "id" = Some (VNum (m + 1)))).
Proof.
  apply (post_items_assigns_max_plus_one no_coercion no_coercion
           "2024-01-01T00:00:00.000Z"
           (required_fields "Widget" "W1" 5 (999 # 100)) (Disk initialData 0)).
  - apply (ids_between_weaken _ 3); [lia | exact initialData_between].
  - reflexivity.
  - reflexivity.
Defined.

(** ** The id invariant along a run of the server *)

Lemma serve_keeps_ids StringToNumber ObjectToNumber r d :
  server_assigned r →
  numeric_ids (data_file d) ∧ distinct_ids (data_file d) →
  numeric_ids (data_file (serve StringToNumber ObjectToNumber d r)) ∧
  distinct_ids (data_file (serve StringToNumber ObjectToNumber d r)).
Proof.
  intros Hr [Hnum Hdist]. unfold serve.
  destruct r as [search category|id|now body|now id body|id]; simpl in *.
  - rewrite get_items_eq. simpl. auto.
  - rewrite get_item_eq. simpl. auto.
  - destruct (post_items StringToNumber ObjectToNumber now body d)
      as [[res|e] d'] eqn:Hrun.
    + simpl. eapply post_items_keeps_distinct; eassumption.
    + rewrite post_items_eq in Hrun. cbv zeta in Hrun.
      destruct (missing_required _); discriminate.
  - pose proof (put_item_ids now id body d) as Hids. symmetry in Hids.
    split.
    + exact (numeric_ids_same_ids _ _ Hids Hnum).
    + exact (distinct_ids_same_ids _ _ Hids Hdist).
  - rewrite delete_item_eq. cbv zeta.
    destruct (_ =? _)%nat; simpl; [auto|].
    split; [apply numeric_ids_filter, Hnum | apply distinct_ids_filter, Hdist].
Qed.

Lemma ids_between_filter lo hi (p : object → bool) items :
  ids_between lo hi items → ids_between lo hi (List.filter p items).
Proof.
  unfold ids_between. rewrite !Forall_forall. intros H x Hx.
  apply H. apply list_elem_of_In, filter_In in Hx as [Hx _].
  apply list_elem_of_In, Hx.
Qed.

Lemma ids_between_same_ids lo hi l l' :
  ids_of l = ids_of l' → ids_between lo hi l → ids_between lo hi l'.
Proof.
  unfold ids_between. rewrite !Forall_forall. intros Hids H a Ha.
  apply list_elem_of_lookup in Ha as [i Hi].
  destruct (ids_of_lookup _ _ _ _ Hids Hi) as (a0 & Ha0 & <-).
  apply H. apply list_elem_of_lookup. eauto.
Qed.

Lemma serve_keeps_ids_between StringToNumber ObjectToNumber lo hi r d :
  server_assigned r →
  (lo ≤ 1)%Z → (0 ≤ hi)%Z →
  ids_between lo hi (data_file d) →
  ids_between lo (hi + 1)
    (data_file (serve StringToNumber ObjectToNumber d r)).
Proof.
  intros Hr Hlo Hhi Hids.
  assert (ids_between lo (hi + 1) (data_file d)) as Hids'
    by (apply (ids_between_weaken _ hi); [lia | exact Hids]).
  unfold serve.
  destruct r as [search category|id|now body|now id body|id]; simpl in *.
  - rewrite get_items_eq. exact Hids'.
  - rewrite get_item_eq. exact Hids'.
  - rewrite post_items_eq. cbv zeta.
    destruct (missing_required _); simpl; [exact Hids'|].
    apply Forall_app. split; [exact Hids'|].
    constructor; [|constructor].
    destruct (next_id_between StringToNumber ObjectToNumber lo hi _ Hlo Hhi Hids)
      as (n & z & Hn & Hz & Hb).
    exists n, z. split; [|split; [exact Hz | exact Hb]].
    rewrite new_item_id, Hr, Hn. reflexivity.
  - pose proof (put_item_ids now id body d) as Hsame. symmetry in Hsame.
    exact (ids_between_same_ids _ _ _ _ Hsame Hids').
  - rewrite delete_item_eq. cbv zeta.
    destruct (_ =? _)%nat; simpl; [exact Hids'|].
    apply ids_between_filter, Hids'.
Qed.

(** X12. Start from a collection whose ids are pairwise distinct
    integers between -2^53 and [hi], and serve any sequence of requests
    of which no create carries an [id] in its body, short enough that
    [hi] plus its length stays within 2^53.  Whatever the requests and
    their outcomes, the ids are still pairwise distinct integers, now
    between -2^53 and [hi] plus the number of requests. *)
Theorem serve_all_keeps_ids_distinct StringToNumber ObjectToNumber rs d hi :
  Forall server_assigned rs →
  (0 ≤ hi)%Z →
  (hi + Z.of_nat (List.length rs) ≤ 2 ^ 53)%Z →
  ids_between (- 2 ^ 53) hi (data_file d) →
  distinct_ids (data_file d) →
  ids_between (- 2 ^ 53) (hi + Z.of_nat (List.length rs))
    (data_file (serve_all StringToNumber ObjectToNumber rs d)) ∧
  distinct_ids (data_file (serve_all StringToNumber ObjectToNumber rs d)).
Proof.
  intros Hrs Hhi _. revert d hi Hhi. unfold serve_all.
  induction Hrs as [|r rs Hr _ IH]; intros d hi Hhi Hids Hdist.
  - simpl. split; [|exact Hdist].
    apply (ids_between_weaken _ hi); [lia | exact Hids].
  - cbn [fold_left List.length].
    destruct (serve_keeps_ids StringToNumber ObjectToNumber r d Hr
                (conj (ids_between_numeric _ _ _ Hids) Hdist))
      as [_ Hdist'].
    assert (ids_between (- 2 ^ 53) (hi + 1)
              (data_file (serve StringToNumber ObjectToNumber d r))) as Hids'
      by (apply serve_keeps_ids_between; [exact Hr | lia | exact Hhi | exact Hids]).
    destruct (IH _ (hi + 1)%Z ltac:(lia) Hids' Hdist') as [Hfinal Hdfinal].
    split; [|exact Hdfinal].
    apply (ids_between_weaken _ (hi + 1 + Z.of_nat (List.length rs)));
      [lia | exact Hfinal].
Qed.

Lemma initialData_numeric : numeric_ids initialData.
Proof. repeat constructor; eexists; reflexivity. Qed.

Lemma initialData_distinct : distinct_ids initialData.
Proof.
  intros i j a b qa qb Ha Hb Hqa Hqb Heq.
  destruct i as [|[|[|i]]]; try discriminate Ha;
    destruct j as [|[|[|j]]]; try discriminate Hb;
    try reflexivity; exfalso;
    injection Ha as <-; injection Hb as <-;
    injection Hqa as <-; injection Hqb as <-;
    vm_compute in Heq; discriminate.
Qed.

Lemma serve_all_keeps_ids_distinct_witness :
  let rs := [PostItems "2024-01-01T00:00:00.000Z"
               (required_fields "Widget" "W1" 5 (999 # 100));
             DeleteItem "2";
             PutItem "2024-01-02T00:00:00.000Z" "4" update_body;
             PostItems "2024-01-03T00:00:00.000Z"
               (required_fields "Gadget" "G1" 2 (45 # 10))] in
  ids_between (- 2 ^ 53) (3 + Z.of_nat (List.length rs))
    (data_file (serve_all no_coercion no_coercion rs (Disk initialData 0))) ∧
  distinct_ids (data_file (serve_all no_coercion no_coercion rs
                             (Disk initialData 0))).
Proof.
  cbv zeta.
  apply (serve_all_keeps_ids_distinct no_coercion no_coercion).
  - repeat constructor.
  - lia.
  - simpl. lia.
  - exact initialData_between.
  - exact initialData_distinct.
Defined.

(** ** Decimal path segments *)

Lemma parse_digits_acc d a :
  parse_digits 10 (Some (Z.pos a)) (NilEmpty.string_of_uint d)
  = Some (Z.pos (Pos.of_uint_acc d a)).
Proof.
  revert a. induction d; intros a; simpl; [reflexivity|..].
  all: rewrite <- IHd; do 2 f_equal.
  all: match goal with
       | |- context [nat_of_ascii ?c] =>
           let v := eval vm_compute in (nat_of_ascii c) in
           change (nat_of_ascii c) with v
       end; lia.
Qed.

Lemma parse_digits_zero d :
  parse_digits 10 (Some 0%Z) (NilEmpty.string_of_uint d)
  = Some (Z.of_N (Pos.of_uint d)).
Proof.
  induction d; simpl; [reflexivity | exact IHd | ..];
    apply parse_digits_acc.
Qed.

Lemma parse_digits_start d :
  d ≠ Decimal.Nil →
  parse_digits 10 None (NilEmpty.string_of_uint d)
  = Some (Z.of_N (Pos.of_uint d)).
Proof.
  intros Hd. rewrite <- parse_digits_zero.
  destruct d; [congruence|..]; reflexivity.
Qed.

Lemma parseInt_unsigned d :
  d ≠ Decimal.Nil →
  parseInt (NilEmpty.string_of_uint d)
  = Num (inject_Z (1 * Z.of_N (Pos.of_uint d))).
Proof.
  intros Hd.
  transitivity (match parse_digits 10 None (NilEmpty.string_of_uint d) with
                | None => NaN
                | Some m => Num (inject_Z (1 * m))
                end).
  - destruct d as [|d|d|d|d|d|d|d|d|d|d]; [congruence|..];
      destruct d; reflexivity.
  - rewrite (parse_digits_start d Hd). reflexivity.
Qed.

Lemma parseInt_negative d :
  d ≠ Decimal.Nil →
  parseInt (String "-" (NilEmpty.string_of_uint d))
  = Num (inject_Z (-1 * Z.of_N (Pos.of_uint d))).
Proof.
  intros Hd.
  transitivity (match parse_digits 10 None (NilEmpty.string_of_uint d) with
                | None => NaN
                | Some m => Num (inject_Z (-1 * m))
                end).
  - destruct d as [|d|d|d|d|d|d|d|d|d|d]; [congruence|..];
      destruct d; reflexivity.
  - rewrite (parse_digits_start d Hd). reflexivity.
Qed.

Lemma to_uint_not_nil p : Pos.to_uint p ≠ Decimal.Nil.
Proof.
  intros H. pose proof (DecimalPos.Unsigned.of_to p) as Hof.
  rewrite H in Hof. discriminate.
Qed.

Lemma parseInt_decimal z : parseInt (integer_to_string z) = Num (inject_Z z).
Proof.
  unfold integer_to_string. destruct z as [|p|p]; simpl.
  - reflexivity.
  - pose proof (to_uint_not_nil p) as Hp.
    replace (NilZero.string_of_uint (Pos.to_uint p))
      with (NilEmpty.string_of_uint (Pos.to_uint p))
      by (destruct (Pos.to_uint p); [congruence | reflexivity..]).
    rewrite (parseInt_unsigned _ Hp), DecimalPos.Unsigned.of_to.
    reflexivity.
  - pose proof (to_uint_not_nil p) as Hp.
    replace (NilZero.string_of_uint (Pos.to_uint p))
      with (NilEmpty.string_of_uint (Pos.to_uint p))
      by (destruct (Pos.to_uint p); [congruence | reflexivity..]).
    rewrite (parseInt_negative _ Hp), DecimalPos.Unsigned.of_to.
    reflexivity.
Qed.

(** X13. For an integer of magnitude at most 2^53, the path segment
    that is its decimal form is read back as that integer, and so
    matches exactly the stored items whose id is that number: on these
    integers [parseInt] undoes the conversion a template literal
    performs on an id. *)
Theorem parseInt_integer_to_string z (item : object) :
  exact_integer z →
  parseInt (integer_to_string z) = Num (inject_Z z) ∧
  (id_matches (integer_to_string z) item = true
   ↔ ∃ q, item !! "id" = Some (VNum q) ∧ (q == inject_Z z)%Q).
Proof.
  intros _. split; [apply parseInt_decimal|].
  unfold id_matches. rewrite parseInt_decimal. unfold strict_eq_number.
  destruct (item !! "id") as [[| |q| | |]|];
    try (split; [discriminate | intros (q' & [=] & _)]).
  rewrite Qeq_bool_iff. split.
  - intros H. eauto.
  - intros (q' & [= <-] & H). exact H.
Qed.

Lemma parseInt_integer_to_string_witness :
  parseInt (integer_to_string 3) = Num (inject_Z 3) ∧
  (id_matches (integer_to_string 3) wireless_mouse = true
   ↔ ∃ q, wireless_mouse !! "id" = Some (VNum q) ∧ (q == inject_Z 3)%Q).
Proof.
  apply (parseInt_integer_to_string 3 wireless_mouse).
  unfold exact_integer. lia.
Defined.

Lemma integer_ids_numeric items : integer_ids items → numeric_ids items.
Proof.
  intros H. eapply Forall_impl; [exact H|].
  intros i (q & z & Hq & _). eauto.
Qed.

Lemma next_id_integer StringToNumber ObjectToNumber items :
  integer_ids items →
  ∃ n z, next_id StringToNumber ObjectToNumber items = Num n ∧
         (n == inject_Z z)%Q.
Proof.
  intros Hint. destruct items as [|x items].
  - exists 1%Q, 1%Z. split; reflexivity.
  - destruct (next_id_numeric StringToNumber ObjectToNumber (x :: items))
      as (m & Hm & _ & holder & Hin & Hholder);
      [apply integer_ids_numeric, Hint | discriminate |].
    unfold integer_ids in Hint. rewrite Forall_forall in Hint.
    destruct (Hint holder Hin) as (q & z & Hq & Hz).
    rewrite Hholder in Hq. injection Hq as <-.
    exists (m + 1)%Q, (z + 1)%Z. split; [exact Hm|].
    rewrite inject_Z_plus, Hz. reflexivity.
Qed.

(** X14. Over stored ids that are integers of magnitude below 2^53, an
    accepted create that leaves the id to the server returns a record
    whose id is an integer of magnitude at most 2^53, and the get of
    [/api/items/<that id in decimal>] that follows returns that very
    record. *)
Theorem post_items_then_get_by_path StringToNumber ObjectToNumber now body d :
  ids_between (- 2 ^ 53) (2 ^ 53 - 1) (data_file d) →
  body !! "id" = None →
  missing_required body = false →
  ∃ item z d',
    post_items StringToNumber ObjectToNumber now body d
    = (Ok (Res 201 (Item item)), d') ∧
    exact_integer z ∧
    (∃ q, item !! "id" = Some (VNum q) ∧ (q == inject_Z z)%Q) ∧
    get_item (integer_to_string z) d' = (Ok (Res 200 (Item item)), d').
Proof.
  intros Hids Hid Hvalid.
  pose proof (ids_between_numeric _ _ _ Hids) as Hnum.
  destruct (post_items_fresh_id StringToNumber ObjectToNumber now body d
              Hnum Hid) as (item & n & Hpost & Hnext & Hitem & Hbelow).
  { rewrite missing_required_new_item. exact Hvalid. }
  destruct (next_id_between StringToNumber ObjectToNumber
              (- 2 ^ 53) (2 ^ 53 - 1) (data_file d))
    as (n' & z & Hnext' & Hz & Hb); [lia | lia | exact Hids |].
  rewrite Hnext in Hnext'. injection Hnext' as <-.
  exists item, z. eexists. split; [exact Hpost|].
  split; [unfold exact_integer; lia|].
  split; [eauto|].
  rewrite get_item_eq. simpl.
  rewrite (find_first (id_matches (integer_to_string z)) (data_file d) item []);
    [reflexivity| |].
  - eapply Forall_impl; [exact Hbelow|].
    intros i (qi & Hqi & Hlt). unfold id_matches.
    rewrite Hqi, parseInt_decimal. simpl.
    destruct (Qeq_bool qi (inject_Z z)) eqn:He; [|reflexivity].
    apply Qeq_bool_iff in He. lra.
  - unfold id_matches. rewrite Hitem, parseInt_decimal. simpl.
    apply Qeq_bool_iff. exact Hz.
Qed.

Lemma initialData_integer : integer_ids initialData.
Proof. repeat constructor; eexists _, _; split; reflexivity. Qed.

Lemma post_items_then_get_by_path_witness :
  ∃ item z d',
    post_items no_coercion no_coercion "2024-01-01T00:00:00.000Z"
      (required_fields "Widget" "W1" 5 (999 # 100)) (Disk initialData 0)
    = (Ok (Res 201 (Item item)), d') ∧
    exact_integer z ∧
    (∃ q, item !! "id" = Some (VNum q) ∧ (q == inject_Z z)%Q) ∧
    get_item (integer_to_string z) d' = (Ok (Res 200 (Item item)), d').
Proof.
  apply (post_items_then_get_by_path no_coercion no_coercion
           "2024-01-01T00:00:00.000Z"
           (required_fields "Widget" "W1" 5 (999 # 100)) (Disk initialData 0)).
  - apply (ids_between_weaken _ 3); [lia | exact initialData_between].
  - reflexivity.
  - reflexivity.
Defined.

(** * The browser client against the server *)

Section ClientFacts.

Variable parseFloat : string → number.

Lemma handleFormSubmit_sent isEditMode currentItemId f call :
  handleFormSubmit parseFloat isEditMode currentItemId f = Some call →
  trim (input_productName f) ≠ "" ∧
  trim (input_sku f) ≠ "" ∧
  (∃ q, parseInt_radix10 (input_quantity f) = Num q) ∧
  (∃ p, parseFloat (input_price f) = Num p) ∧
  (call = CallPost (formData_json parseFloat f) ∨
   (isEditMode = true ∧ id_truthy currentItemId = true ∧
    call = CallPut (id_segment currentItemId) (formData_json parseFloat f))).
Proof.
  unfold handleFormSubmit. simpl.
  destruct (bool_decide (trim (input_productName f) = "")) eqn:Hname;
    [discriminate|].
  destruct (bool_decide (trim (input_sku f) = "")) eqn:Hsku; [discriminate|].
  destruct (parseInt_radix10 (input_quantity f)) as [|q]; [discriminate|].
  destruct (parseFloat (input_price f)) as [|p]; [discriminate|].
  simpl. apply bool_decide_eq_false in Hname, Hsku.
  destruct isEditMode, (id_truthy currentItemId); simpl;
    intros [= <-]; repeat split; eauto.
Qed.

Lemma formData_json_fields f :
  let body := formData_json parseFloat f in
  body !! "productName" = Some (VStr (trim (input_productName f))) ∧
  body !! "sku" = Some (VStr (trim (input_sku f))) ∧
  body !! "category" = Some (VStr (input_category f)) ∧
  body !! "quantity"
    = Some (json_of_number (parseInt_radix10 (input_quantity f))) ∧
  body !! "price" = Some (json_of_number (parseFloat (input_price f))) ∧
  body !! "supplier" = Some (or_null (trim (input_supplier f))) ∧
  body !! "location" = Some (or_null (trim (input_location f))) ∧
  body !! "id" = None ∧
  body !! "lastUpdated" = None.
Proof.
  unfold formData_json. cbv zeta.
  repeat split;
    repeat (rewrite lookup_insert_ne by discriminate);
    first [apply lookup_insert_eq | apply lookup_empty].
Qed.

Lemma or_null_optional s : optional_string (Some (or_null s)).
Proof.
  unfold or_null, optional_string. destruct (truthy _); eauto.
Qed.

(** What every body sent by the form looks like. *)
Lemma form_body_shape body :
  form_body parseFloat body →
  missing_required body = false ∧
  body !! "id" = None ∧
  (∃ s, body !! "productName" = Some (VStr s)) ∧
  (∃ s, body !! "sku" = Some (VStr s)) ∧
  optional_string (body !! "supplier") ∧
  optional_string (body !! "location").
Proof.
  intros (isEditMode & currentItemId & f & Hsent).
  assert (∃ call, handleFormSubmit parseFloat isEditMode currentItemId f
                  = Some call ∧
                  (call = CallPost body ∨ ∃ id, call = CallPut id body))
    as (call & Hcall & Hbody).
  { destruct Hsent as [H | [id H]]; eauto. }
  destruct (handleFormSubmit_sent _ _ _ _ Hcall)
    as (Hname & Hsku & [q Hq] & [p Hp] & Hwhich).
  assert (body = formData_json parseFloat f) as ->.
  { destruct Hwhich as [-> | (_ & _ & ->)], Hbody as [[=] | [id [=]]];
      congruence. }
  destruct (formData_json_fields f)
    as (Fname & Fsku & _ & Fqty & Fprice & Fsup & Floc & Fid & _).
  unfold missing_required.
  rewrite Fname, Fsku, Fqty, Fprice, Fsup, Floc, Fid.
  repeat split; eauto using or_null_optional.
  simpl. rewrite !bool_decide_eq_false_2 by assumption. reflexivity.
Qed.

End ClientFacts.

(** ** Listing over well-shaped items *)

Lemma search_step_well_shaped search items :
  Forall well_shaped items →
  search_step search items
  = Ok (List.filter
          (λ item, match search with
                   | Some s => if truthy (Some (VStr s))
                               then search_keep (toLowerCase s) item
                               else true
                   | None => true
                   end) items).
Proof.
  intros Hshape. unfold search_step. destruct search as [s|].
  - destruct (truthy (Some (VStr s))) eqn:Hs.
    + apply filter_throwing_ok.
      eapply Forall_impl; [exact Hshape|].
      intros item Hitem. simpl. apply search_callback_ok; [|exact Hitem].
      intros Hempty. apply toLowerCase_empty in Hempty as ->. discriminate.
    + rewrite forallb_filter_id; [reflexivity|].
      apply forallb_forall. reflexivity.
  - rewrite forallb_filter_id; [reflexivity|].
    apply forallb_forall. reflexivity.
Qed.

Lemma get_items_well_shaped search category d :
  Forall well_shaped (data_file d) →
  get_items search category d
  = (Ok (Res 200 (Items (List.filter (list_keep search category)
                           (data_file d)))), d).
Proof.
  intros Hshape.
  rewrite get_items_eq, (search_step_well_shaped _ _ Hshape).
  do 4 f_equal. unfold category_step, list_keep.
  destruct category as [c|].
  - destruct (truthy (Some (VStr c))).
    + apply filter_filter_andb.
    + apply List.filter_ext. intros x. rewrite andb_true_r. reflexivity.
  - apply List.filter_ext. intros x. rewrite andb_true_r. reflexivity.
Qed.

Lemma well_shaped_filter (p : object → bool) items :
  Forall well_shaped items → Forall well_shaped (List.filter p items).
Proof.
  rewrite !Forall_forall. intros H x Hx. apply H.
  apply list_elem_of_In, filter_In in Hx as [Hx _].
  apply list_elem_of_In, Hx.
Qed.

Section ClientServer.

Variable parseFloat : string → number.
Variable StringToNumber : string → number.
Variable ObjectToNumber : value → number.

Lemma form_body_new_item_shaped now body items :
  form_body parseFloat body →
  well_shaped (make_new_item StringToNumber ObjectToNumber now body items).
Proof.
  intros Hbody.
  destruct (form_body_shape parseFloat body Hbody)
    as (_ & _ & Hname & Hsku & Hsup & Hloc).
  unfold well_shaped. rewrite !new_item_field by discriminate. auto.
Qed.

Lemma form_body_updated_item_shaped now body existing :
  form_body parseFloat body →
  well_shaped (make_updated_item now body existing).
Proof.
  intros (e & c & f & Hsent).
  assert (body = formData_json parseFloat f) as ->.
  { destruct Hsent as [H | [id H]];
      apply handleFormSubmit_sent in H as (_ & _ & _ & _ & Hwhich);
      destruct Hwhich as [[=] | (_ & _ & [=])]; congruence. }
  destruct (formData_json_fields parseFloat f)
    as (Fname & Fsku & _ & _ & _ & Fsup & Floc & _).
  unfold well_shaped. rewrite !updated_item_field by discriminate.
  rewrite Fname, Fsku, Fsup, Floc. simpl.
  split; [eauto|]. split; [eauto|]. split; apply or_null_optional.
Qed.


Lemma serve_keeps_well_shaped d r :
  form_made parseFloat r →
  Forall well_shaped (data_file d) →
  Forall well_shaped (data_file (serve StringToNumber ObjectToNumber d r)).
Proof.
  intros Hr Hshape. unfold serve.
  destruct r as [search category|id|now body|now id body|id]; simpl in *.
  - rewrite get_items_eq. exact Hshape.
  - rewrite get_item_eq. exact Hshape.
  - rewrite post_items_eq. cbv zeta.
    destruct (missing_required _); simpl; [exact Hshape|].
    apply Forall_app. split; [exact Hshape|].
    constructor; [|constructor].
    apply form_body_new_item_shaped, Hr.
  - rewrite put_item_eq.
    destruct (findIndex _ _) as [index|]; [|exact Hshape].
    destruct (data_file d !! index) as [existing|]; [|exact Hshape].
    simpl. apply Forall_insert; [exact Hshape|].
    apply form_body_updated_item_shaped, Hr.
  - rewrite delete_item_eq. cbv zeta.
    destruct (_ =? _)%nat; simpl; [exact Hshape|].
    apply well_shaped_filter, Hshape.
Qed.

(** X16. As long as every create and update comes from the form, the
    collection keeps the shape the search filter relies on, so no list
    request fails: starting from well-shaped items, after any sequence
    of such requests every list request, with any search term and
    category, is answered 200. *)
Theorem form_requests_keep_search_working rs d search category :
  Forall well_shaped (data_file d) →
  Forall (form_made parseFloat) rs →
  let d' := serve_all StringToNumber ObjectToNumber rs d in
  Forall well_shaped (data_file d') ∧
  ∃ kept, get_items search category d' = (Ok (Res 200 (Items kept)), d').
Proof.
  intros Hshape Hrs. cbv zeta.
  assert (Forall well_shaped
            (data_file (serve_all StringToNumber ObjectToNumber rs d))) as H.
  { revert d Hshape. unfold serve_all.
    induction Hrs as [|r rs Hr _ IH]; intros d Hshape; simpl; [exact Hshape|].
    apply IH, serve_keeps_well_shaped; assumption. }
  split; [exact H|].
  eexists. apply get_items_well_shaped, H.
Qed.

End ClientServer.


Lemma widget_form_body : form_body sample_parseFloat
                           (formData_json sample_parseFloat widget_form).
Proof. exists false, None, widget_form. left. reflexivity. Qed.

Lemma form_requests_keep_search_working_witness :
  let rs := [PostItems "2024-01-01T00:00:00.000Z"
               (formData_json sample_parseFloat widget_form);
             PutItem "2024-01-02T00:00:00.000Z" "2"
               (formData_json sample_parseFloat widget_form);
             DeleteItem "1"] in
  let d' := serve_all no_coercion no_coercion rs (Disk initialData 0) in
  Forall well_shaped (data_file d') ∧
  ∃ kept, get_items (Some "widget") None d' = (Ok (Res 200 (Items kept)), d').
Proof.
  cbv zeta.
  apply (form_requests_keep_search_working sample_parseFloat
           no_coercion no_coercion).
  - exact initialData_well_shaped.
  - repeat constructor; exact widget_form_body.
Defined.

(** ** The filter box *)

Lemma lower_char_idempotent c : lower_char (lower_char c) = lower_char c.
Proof. destruct c as [[] [] [] [] [] [] [] []]; reflexivity. Qed.

Lemma toLowerCase_idempotent s : toLowerCase (toLowerCase s) = toLowerCase s.
Proof.
  induction s as [|c s IH]; simpl; [reflexivity|].
  rewrite lower_char_idempotent, IH. reflexivity.
Qed.

(** X17. The request [filterInventory] sends never carries an empty
    parameter, and lower-casing the term in the browser changes nothing:
    for ASCII text typed in the search box, over well-shaped items whose
    searched fields are ASCII text, the server answers 200 with exactly
    the items that contain what was typed, up to case, in one of the
    four searched fields (when something was typed) and whose category
    is the selected one (when one is selected), in storage order. *)
Theorem filterInventory_result searchInput categoryFilter d :
  ascii_string searchInput = true →
  Forall well_shaped (data_file d) →
  Forall ascii_searched (data_file d) →
  ∃ search category (keep : object → bool),
    filterInventory searchInput categoryFilter = CallList search category ∧
    search ≠ Some "" ∧ category ≠ Some "" ∧
    (∀ item, item ∈ data_file d →
       (keep item = true ↔
          (searchInput ≠ "" → matches_search searchInput item) ∧
          (categoryFilter ≠ "" → matches_category categoryFilter item))) ∧
    get_items search category d
    = (Ok (Res 200 (Items (List.filter keep (data_file d)))), d).
Proof.
  intros _ Hshape _. unfold filterInventory. cbv zeta.
  eexists _, _, _. split; [reflexivity|].
  split; [|split; [|split; [|apply get_items_well_shaped, Hshape]]].
  - simpl. destruct (bool_decide (toLowerCase searchInput = "")) eqn:H;
      simpl; [discriminate|].
    apply bool_decide_eq_false in H. congruence.
  - simpl. destruct (bool_decide (categoryFilter = "")) eqn:H;
      simpl; [discriminate|].
    apply bool_decide_eq_false in H. congruence.
  - intros item _. unfold list_keep. rewrite andb_true_iff.
    apply Morphisms_Prop.and_iff_morphism.
    + simpl. destruct (bool_decide (toLowerCase searchInput = "")) eqn:H; simpl.
      * apply bool_decide_eq_true, toLowerCase_empty in H as ->.
        split; [congruence | reflexivity].
      * apply bool_decide_eq_false in H.
        rewrite ?bool_decide_eq_false_2 by exact H. simpl.
        rewrite toLowerCase_idempotent, search_keep_spec.
        split; [auto|]. intros Hm. apply Hm. intros ->. apply H. reflexivity.
    + simpl. destruct (bool_decide (categoryFilter = "")) eqn:H; simpl.
      * apply bool_decide_eq_true in H as ->.
        split; [congruence | reflexivity].
      * apply bool_decide_eq_false in H.
        rewrite ?bool_decide_eq_false_2 by exact H. simpl.
        rewrite category_callback_spec. split; auto.
Qed.

Lemma filterInventory_result_witness :
  ∃ search category (keep : object → bool),
    filterInventory "MOUSE" "" = CallList search category ∧
    search ≠ Some "" ∧ category ≠ Some "" ∧
    (∀ item, item ∈ initialData →
       (keep item = true ↔
          ("MOUSE" ≠ "" → matches_search "MOUSE" item) ∧
          ("" ≠ "" → matches_category "" item))) ∧
    get_items search category (Disk initialData 0)
    = (Ok (Res 200 (Items (List.filter keep initialData))), Disk initialData 0).
Proof.
  apply (filterInventory_result "MOUSE" "" (Disk initialData 0)).
  - reflexivity.
  - exact initialData_well_shaped.
  - exact initialData_ascii.
Defined.

(** ** Editing and deleting from the table *)

Lemma id_matches_decimal z (item : object) :
  id_matches (integer_to_string z) item = true
  ↔ ∃ q, item !! "id" = Some (VNum q) ∧ (q == inject_Z z)%Q.
Proof.
  unfold id_matches. rewrite parseInt_decimal. unfold strict_eq_number.
  destruct (item !! "id") as [[| |q| | |]|];
    try (split; [discriminate | intros (q' & [=] & _)]).
  rewrite Qeq_bool_iff. split.
  - intros H. eauto.
  - intros (q' & [= <-] & H). exact H.
Qed.

Section Table.

Variable parseFloat : string → number.

(** X18. A valid form whose [productName] and [sku] inputs are ASCII
    text, submitted in edit mode for the non-zero integer id [z] of
    magnitude at most 2^53, is sent as an update of
    [/api/items/<z in decimal>].  When the collection has an item with
    id [z], the server answers 200 with a record that still has id [z],
    carries the trimmed [productName] and [sku] and the [category] of
    the form, and has the server's clock as [lastUpdated]. *)
Theorem form_edit_updates_item f z call now d :
  handleFormSubmit parseFloat true (Some z) f = Some call →
  z ≠ 0%Z →
  exact_integer z →
  ascii_string (input_productName f) = true →
  ascii_string (input_sku f) = true →
  has_id z (data_file d) →
  ∃ body merged d',
    call = CallPut (integer_to_string z) body ∧
    put_item now (integer_to_string z) body d
    = (Ok (Res 200 (Item merged)), d') ∧
    (∃ q, merged !! "id" = Some (VNum q) ∧ (q == inject_Z z)%Q) ∧
    merged !! "productName" = Some (VStr (trim (input_productName f))) ∧
    merged !! "sku" = Some (VStr (trim (input_sku f))) ∧
    merged !! "category" = Some (VStr (input_category f)) ∧
    merged !! "lastUpdated" = Some (VStr now).
Proof.
  intros Hsent Hz _ _ _ Hhas.
  assert (call = CallPut (integer_to_string z) (formData_json parseFloat f))
    as ->.
  { unfold handleFormSubmit in Hsent.
    destruct (_ || _); [discriminate|].
    simpl in Hsent. apply Z.eqb_neq in Hz. rewrite Hz in Hsent.
    simpl in Hsent. congruence. }
  assert (Exists (λ i, id_matches (integer_to_string z) i = true) (data_file d))
    as Hex.
  { eapply Exists_impl; [exact Hhas|].
    intros i Hi. apply id_matches_decimal, Hi. }
  apply findIndex_Exists in Hex as [index Hindex].
  destruct (findIndex_Some _ _ _ Hindex) as (existing & Hlook & Hmatch & _).
  destruct (formData_json_fields parseFloat f) as (Fname & Fsku & Fcat & _).
  eexists _, (make_updated_item now (formData_json parseFloat f) existing), _.
  split; [reflexivity|].
  split; [rewrite put_item_eq, Hindex, Hlook; reflexivity|].
  split; [rewrite updated_item_id; apply id_matches_decimal, Hmatch|].
  rewrite !updated_item_field by discriminate.
  rewrite Fname, Fsku, Fcat. simpl.
  repeat split. apply updated_item_lastUpdated.
Qed.

End Table.

Lemma form_edit_updates_item_witness :
  ∃ body merged d',
    CallPut "2" (formData_json sample_parseFloat widget_form)
      = CallPut (integer_to_string 2) body ∧
    put_item "2024-01-01T00:00:00.000Z" (integer_to_string 2) body
      (Disk initialData 0)
    = (Ok (Res 200 (Item merged)), d') ∧
    (∃ q, merged !! "id" = Some (VNum q) ∧ (q == inject_Z 2)%Q) ∧
    merged !! "productName"
      = Some (VStr (trim (input_productName widget_form))) ∧
    merged !! "sku" = Some (VStr (trim (input_sku widget_form))) ∧
    merged !! "category" = Some (VStr (input_category widget_form)) ∧
    merged !! "lastUpdated" = Some (VStr "2024-01-01T00:00:00.000Z").
Proof.
  apply (form_edit_updates_item sample_parseFloat widget_form 2
           (CallPut "2" (formData_json sample_parseFloat widget_form))
           "2024-01-01T00:00:00.000Z" (Disk initialData 0)).
  - reflexivity.
  - discriminate.
  - unfold exact_integer. lia.
  - reflexivity.
  - reflexivity.
  - apply Exists_cons_tl, Exists_cons_hd. eexists. split; reflexivity.
Defined.

(** X19. [confirmDelete] sends nothing when [currentItemId] is [null] or
    [0].  For a non-zero integer id [z] of magnitude at most 2^53 it
    sends a delete of [/api/items/<z in decimal>], after which the
    collection holds exactly the items whose id is not the number [z],
    unchanged and in their order. *)
Theorem confirmDelete_removes_id z d :
  confirmDelete None = None ∧
  confirmDelete (Some 0%Z) = None ∧
  (z ≠ 0%Z → exact_integer z →
   confirmDelete (Some z) = Some (CallDelete (integer_to_string z)) ∧
   let kept := data_file (delete_item (integer_to_string z) d).2 in
   sublist kept (data_file d) ∧
   ∀ item, item ∈ kept ↔
           item ∈ data_file d ∧
           ¬ ∃ q, item !! "id" = Some (VNum q) ∧ (q == inject_Z z)%Q).
Proof.
  split; [reflexivity|]. split; [reflexivity|].
  intros Hz _. split.
  - unfold confirmDelete. simpl. apply Z.eqb_neq in Hz. rewrite Hz.
    reflexivity.
  - cbv zeta.
    assert (data_file (delete_item (integer_to_string z) d).2
            = List.filter (λ i, negb (id_matches (integer_to_string z) i))
                (data_file d)) as ->.
    { rewrite delete_item_eq. cbv zeta.
      destruct (_ =? _)%nat eqn:Hlen; simpl; [|reflexivity].
      apply Nat.eqb_eq, filter_length_eq in Hlen. symmetry. exact Hlen. }
    split; [apply filter_sublist|].
    intros item.
    rewrite list_elem_of_In, filter_In, <- list_elem_of_In,
      negb_true_iff, <- id_matches_decimal.
    destruct (id_matches (integer_to_string z) item); split;
      intros [H1 H2]; split; auto; congruence.
Qed.

Example confirmDelete_seed :
  confirmDelete (Some 2%Z) = Some (CallDelete "2") ∧
  delete_item "2" (Disk initialData 0)
  = (Ok (Res 204 NoContent), Disk [laptop; wireless_mouse] 1).
Proof. split; vm_compute; reflexivity. Qed.
